(** * GMK EVO-X2 embedded-controller fan tools: a shallow embedding

    Two Python scripts talk to the embedded controller (EC) through the
    debugfs file [/sys/kernel/debug/ec/ec0/io]:

    - [gmk_fan.py], a menu program ([Module GmkFan]);
    - [ec_fans_monitor.py], a one-line monitor with key control
      ([Module EcFansMonitor]).

    Python integers are [Z], [bytes] values are [list byte], dictionaries
    whose iteration order is observable are association lists, and the
    mutable global [PWM_VALUES] is a [gmap] kept in the program state.
    Effectful code runs in a state-and-exception monad over a [world] that
    holds the device file, the pending user input and the trace of what the
    program printed and how long it slept. *)

From Stdlib Require Import ZArith List String Ascii Lia Bool.
From Stdlib.Strings Require Import Byte.
From Stdlib Require Import DecimalString HexadecimalString.
From Stdlib Require Import Floats Uint63.
From stdpp Require Import base list gmap strings.

Local Open Scope Z_scope.

(** ** The fragment of the Python runtime the scripts use *)

Module Py.

Inductive exn_class :=
| OSError | ValueError | StructError | IndexError | KeyError | EOFError
| OverflowError | KeyboardInterrupt.

Record exn := Exn { exn_class_of : exn_class; exn_msg : string }.

(** [except Exception] catches everything but [KeyboardInterrupt], which
    derives from [BaseException]. *)
Definition is_Exception (e : exn) : bool :=
  match exn_class_of e with
  | KeyboardInterrupt => false
  | _ => true
  end.

Definition is_KeyboardInterrupt (e : exn) : bool :=
  match exn_class_of e with
  | KeyboardInterrupt => true
  | _ => false
  end.

(** The outcome of running a piece of code: a value, an exception, or
    [Unfinished] when a [while True] loop is still going after the number of
    iterations the observer allowed. *)
Inductive result (A : Type) :=
| Ok (a : A)
| Raise (e : exn)
| Unfinished.
Arguments Ok {A} a.
Arguments Raise {A} e.
Arguments Unfinished {A}.

Definition rbind {A B} (r : result A) (k : A -> result B) : result B :=
  match r with
  | Ok a => k a
  | Raise e => Raise e
  | Unfinished => Unfinished
  end.

(** [try: r  except: h] on a pure computation (a bare [except] catches every
    exception). *)
Definition try_except_all {A} (r : result A) (h : A) : result A :=
  match r with
  | Raise _ => Ok h
  | _ => r
  end.

(** *** Bytes *)

Definition Z_of_byte (b : byte) : Z := Z.of_N (Byte.to_N b).

Definition byte_of_Z (z : Z) : option byte :=
  if z <? 0 then None else Byte.of_N (Z.to_N z).

(** [l[i]]: a negative index counts from the end. *)
Definition index {A} (l : list A) (i : Z) : result A :=
  let n := Z.of_nat (length l) in
  let j := if i <? 0 then i + n else i in
  if (0 <=? j) && (j <? n) then
    match l !! Z.to_nat j with
    | Some x => Ok x
    | None => Raise (Exn IndexError "index out of range")
    end
  else Raise (Exn IndexError "index out of range").

Definition clamp_index (n i : Z) : Z :=
  if i <? 0 then Z.max (i + n) 0 else Z.min i n.

(** [l[start:stop]]: never raises, bounds are clamped. *)
Definition slice {A} (l : list A) (start stop : Z) : list A :=
  let n := Z.of_nat (length l) in
  let a := clamp_index n start in
  let b := clamp_index n stop in
  take (Z.to_nat (b - a)) (drop (Z.to_nat a) l).

(** [struct.unpack("B", bs)[0]] *)
Definition unpack_B (bs : list byte) : result Z :=
  match bs with
  | [b] => Ok (Z_of_byte b)
  | _ => Raise (Exn StructError "unpack requires a buffer of 1 bytes")
  end.

(** [struct.unpack("<H", bs)[0]] *)
Definition unpack_H_le (bs : list byte) : result Z :=
  match bs with
  | [lo; hi] => Ok (Z_of_byte lo + 256 * Z_of_byte hi)
  | _ => Raise (Exn StructError "unpack requires a buffer of 2 bytes")
  end.

(** [struct.pack("B", v)] *)
Definition pack_B (v : Z) : result (list byte) :=
  match byte_of_Z v with
  | Some b => Ok [b]
  | None => Raise (Exn StructError "ubyte format requires 0 <= number <= 255")
  end.

(** [bytes([v])] *)
Definition bytes1 (v : Z) : result (list byte) :=
  match byte_of_Z v with
  | Some b => Ok [b]
  | None => Raise (Exn ValueError "bytes must be in range(0, 256)")
  end.

(** *** Strings and formatting *)

Definition str (z : Z) : string :=
  DecimalString.NilZero.string_of_int (Z.to_int z).

Fixpoint replicate_ascii (n : nat) (c : ascii) : string :=
  match n with
  | O => EmptyString
  | S n' => String c (replicate_ascii n' c)
  end.

Definition pad_left (c : ascii) (width : nat) (s : string) : string :=
  replicate_ascii (width - String.length s)%nat c +:+ s.

(** [{z:w}], [{z:>w}] and [{z:wd}] on an integer: right-aligned in [w]
    columns. *)
Definition fmt_d (width : nat) (z : Z) : string := pad_left " " width (str z).

Definition upper_hex (c : ascii) : ascii :=
  let n := nat_of_ascii c in
  if (97 <=? n)%nat && (n <=? 102)%nat then ascii_of_nat (n - 32) else c.

Fixpoint map_ascii (f : ascii -> ascii) (s : string) : string :=
  match s with
  | EmptyString => EmptyString
  | String c s' => String (f c) (map_ascii f s')
  end.

(** [{z:02X}] on a non-negative integer. *)
Definition fmt_02X (z : Z) : string :=
  pad_left "0" 2
    (map_ascii upper_hex
       (HexadecimalString.NilZero.string_of_int (Z.to_hex_int z))).

(** Python's [str.isspace] on ASCII. *)
Definition is_space (c : ascii) : bool :=
  let n := nat_of_ascii c in
  ((9 <=? n)%nat && (n <=? 13)%nat) || ((28 <=? n)%nat && (n <=? 32)%nat).

Fixpoint lstrip (s : string) : string :=
  match s with
  | String c s' => if is_space c then lstrip s' else s
  | EmptyString => EmptyString
  end.

Fixpoint rstrip (s : string) : string :=
  match s with
  | EmptyString => EmptyString
  | String c s' =>
      match rstrip s' with
      | EmptyString => if is_space c then EmptyString else String c EmptyString
      | r => String c r
      end
  end.

Definition strip (s : string) : string := rstrip (lstrip s).

Definition digit_of (c : ascii) : option Z :=
  let n := nat_of_ascii c in
  if (48 <=? n)%nat && (n <=? 57)%nat then Some (Z.of_nat (n - 48)) else None.

(** The digits of a decimal literal, most significant first; single
    underscores may separate digits. [prev_digit] tells whether the previous
    character was a digit. *)
Fixpoint digits (acc : Z) (prev_digit : bool) (s : string) : option Z :=
  match s with
  | EmptyString => if prev_digit then Some acc else None
  | String c s' =>
      match digit_of c with
      | Some d => digits (10 * acc + d) true s'
      | None =>
          if (Ascii.eqb c "_" && prev_digit)%bool then digits acc false s'
          else None
      end
  end.

Definition quote : ascii := "'".
Definition dquote : ascii := ascii_of_nat 34.
Definition backslash : ascii := "\".

Fixpoint contains (c : ascii) (s : string) : bool :=
  match s with
  | EmptyString => false
  | String c' s' => Ascii.eqb c c' || contains c s'
  end.

Definition hex_digit (n : nat) : ascii :=
  if (n <? 10)%nat then ascii_of_nat (48 + n) else ascii_of_nat (87 + n).

Fixpoint repr_body (q : ascii) (s : string) : string :=
  match s with
  | EmptyString => EmptyString
  | String c s' =>
      let n := nat_of_ascii c in
      let rest := repr_body q s' in
      if Ascii.eqb c backslash then String backslash (String backslash rest)
      else if Ascii.eqb c q then String backslash (String q rest)
      else if (n =? 10)%nat then String backslash (String "n" rest)
      else if (n =? 13)%nat then String backslash (String "r" rest)
      else if (n =? 9)%nat then String backslash (String "t" rest)
      else if ((n <? 32) || (n =? 127))%nat then
        String backslash
          (String "x" (String (hex_digit (n / 16)) (String (hex_digit (n mod 16)) rest)))
      else String c rest
  end.

(** [repr(s)] for a string: single quotes unless the string holds a single
    quote and no double quote; control characters are escaped. Bytes above
    127 are passed through, as the UTF-8 image of printable characters. *)
Definition repr (s : string) : string :=
  let q := if contains quote s && negb (contains dquote s) then dquote else quote in
  String q (repr_body q s +:+ String q EmptyString).

(** [int(s)] on a string: surrounding white space, an optional sign and
    ASCII decimal digits. *)
Definition int (s : string) : result Z :=
  let bad :=
    Raise (Exn ValueError ("invalid literal for int() with base 10: " +:+ repr s)) in
  match strip s with
  | String "-" s' =>
      match digits 0 false s' with Some z => Ok (- z) | None => bad end
  | String "+" s' =>
      match digits 0 false s' with Some z => Ok z | None => bad end
  | s' =>
      match digits 0 false s' with Some z => Ok z | None => bad end
  end.

(** [a / b] on integers is true division: the double nearest to the
    quotient. For operands below 2^53 that is the IEEE division of the two
    operands, which the conversion represents exactly. *)
Definition truediv (a b : Z) : float :=
  PrimFloat.div (PrimFloat.of_uint63 (Uint63.of_Z a)) (PrimFloat.of_uint63 (Uint63.of_Z b)).

(** [int(x)] on a float truncates towards zero: the value of a finite float
    is [m * 2^e], whose integer part is a shift of the mantissa. *)
Definition int_of_float (x : float) : result Z :=
  match Prim2SF x with
  | S754_zero _ => Ok 0
  | S754_finite s m e =>
      let v := if 0 <=? e then Z.shiftl (Z.pos m) e else Z.shiftr (Z.pos m) (- e) in
      Ok (if s then - v else v)
  | S754_infinity _ =>
      Raise (Exn OverflowError "cannot convert float infinity to integer")
  | S754_nan => Raise (Exn ValueError "cannot convert float NaN to integer")
  end.

(** [min(l, key=key)]: the first element whose key is least. *)
Fixpoint min_by_from (key : Z -> Z) (best : Z) (l : list Z) : Z :=
  match l with
  | [] => best
  | x :: l' => min_by_from key (if key x <? key best then x else best) l'
  end.

Definition min_by (key : Z -> Z) (l : list Z) : result Z :=
  match l with
  | [] => Raise (Exn ValueError "min() arg is an empty sequence")
  | x :: l' => Ok (min_by_from key x l')
  end.

(** [d[k]] on a dictionary kept in insertion order. *)
Fixpoint dict_get (d : list (Z * Z)) (k : Z) : option Z :=
  match d with
  | [] => None
  | (k', v) :: d' => if k =? k' then Some v else dict_get d' k
  end.

Definition dict_item (d : list (Z * Z)) (k : Z) : result Z :=
  match dict_get d k with
  | Some v => Ok v
  | None => Raise (Exn KeyError (str k))
  end.

End Py.

Export Py.

(** ** The device file and the world the scripts run in *)

(** The EC register file: either it cannot be opened (missing, permission
    denied, I/O error; [err] is the text of the [OSError]) or it holds the
    register bytes. *)
Inductive device :=
| Unavailable (err : string)
| Registers (mem : list byte).

Definition EINVAL : exn := Exn OSError "[Errno 22] Invalid argument".

(** [f.seek(offset)] *)
Definition file_seek (offset : Z) : result Z :=
  if offset <? 0 then Raise EINVAL else Ok offset.

(** [f.seek(offset); f.read(n)] on the opened file. *)
Definition file_read_at (mem : list byte) (offset : Z) (n : nat) : result (list byte) :=
  if offset <? 0 then Raise EINVAL
  else Ok (take n (drop (Z.to_nat offset) mem)).

(** [f.seek(offset); f.write(bs)] on the opened file. The register file has
    a fixed size: a write that does not fall inside it stores nothing and is
    reported as an I/O error. *)
Fixpoint store (mem : list byte) (pos : nat) (bs : list byte) : list byte :=
  match bs with
  | [] => mem
  | b :: bs' => store (<[pos := b]> mem) (S pos) bs'
  end.

Definition file_write_at (mem : list byte) (offset : Z) (bs : list byte)
  : result (list byte) :=
  if offset <? 0 then Raise EINVAL
  else if Z.of_nat (length mem) <? offset + Z.of_nat (length bs) then Raise EINVAL
  else Ok (store mem (Z.to_nat offset) bs).

(** What the user does while the program waits: types something (a line for
    the menu program, a key for the monitor), presses Ctrl+C, or lets one
    sleep period pass. *)
Inductive event (K : Type) :=
| Input (k : K)
| CtrlC
| Idle.
Arguments Input {K} k.
Arguments CtrlC {K}.
Arguments Idle {K}.

(** What the program does to the outside, besides the device. *)
Inductive effect :=
| Printed (line : string)      (* print(line) *)
| Written (text : string)      (* sys.stdout.write(text), input prompts *)
| Slept (ms : Z)               (* time.sleep *)
| Ran (command : string).      (* os.system *)

Record world {K G : Type} := World {
  ec : device;
  stdin : list (event K);
  trace : list effect;
  globals : G
}.
Arguments world : clear implicits.
Arguments World {K G} ec stdin trace globals.

Section Monad.
Context {K G : Type}.

Definition M (A : Type) : Type := world K G -> result A * world K G.

Definition ret {A} (a : A) : M A := fun w => (Ok a, w).

Definition raise {A} (e : exn) : M A := fun w => (Raise e, w).

Definition bind {A B} (m : M A) (k : A -> M B) : M B :=
  fun w =>
    match m w with
    | (Ok a, w') => k a w'
    | (Raise e, w') => (Raise e, w')
    | (Unfinished, w') => (Unfinished, w')
    end.

Definition unfinished {A} : M A := fun w => (Unfinished, w).

(** The first [except] clause that names the exception handles it; with
    none the exception propagates. *)
Fixpoint dispatch {A} (clauses : list ((exn -> bool) * (exn -> M A))) (e : exn) : M A :=
  match clauses with
  | [] => raise e
  | (handles, h) :: clauses' => if handles e then h e else dispatch clauses' e
  end.

(** [try: m  except C1 as e: h1 e  except C2 as e: h2 e ...]. State changes
    made before the exception stay; an exception raised by a handler is not
    offered to the other clauses. *)
Definition try_except {A} (m : M A) (clauses : list ((exn -> bool) * (exn -> M A))) : M A :=
  fun w =>
    match m w with
    | (Raise e, w') => dispatch clauses e w'
    | r => r
    end.

Definition lift {A} (r : result A) : M A := fun w => (r, w).

Definition get_ec : M device := fun w => (Ok (ec w), w).

Definition set_ec (d : device) : M unit :=
  fun w => (Ok tt, World d (stdin w) (trace w) (globals w)).

Definition get_globals : M G := fun w => (Ok (globals w), w).

Definition set_globals (g : G) : M unit :=
  fun w => (Ok tt, World (ec w) (stdin w) (trace w) g).

Definition emit (e : effect) : M unit :=
  fun w => (Ok tt, World (ec w) (stdin w) (trace w ++ [e]) (globals w)).

Definition set_stdin (l : list (event K)) : M unit :=
  fun w => (Ok tt, World (ec w) l (trace w) (globals w)).

Definition print (line : string) : M unit := emit (Printed line).

Definition os_system (command : string) : M unit := emit (Ran command).

Definition interrupt : exn := Exn KeyboardInterrupt EmptyString.

(** [time.sleep]: a Ctrl+C that arrives meanwhile raises
    [KeyboardInterrupt]; an idle period passes; typed input stays pending. *)
Definition time_sleep (ms : Z) : M unit :=
  fun w =>
    match stdin w with
    | CtrlC :: rest => (Raise interrupt, World (ec w) rest (trace w) (globals w))
    | Idle :: rest => (Ok tt, World (ec w) rest (trace w ++ [Slept ms]) (globals w))
    | _ => (Ok tt, World (ec w) (stdin w) (trace w ++ [Slept ms]) (globals w))
    end.

(** [open(EC_PATH, mode)] *)
Definition open_ec : M (list byte) :=
  fun w =>
    match ec w with
    | Unavailable err => (Raise (Exn OSError err), w)
    | Registers mem => (Ok mem, w)
    end.

End Monad.

Declare Scope py_scope.
Delimit Scope py_scope with py.
Notation "'let*' x ':=' m 'in' k" := (bind m (fun x => k))
  (at level 10, x pattern, m at level 100, k at level 200) : py_scope.
Notation "m1 ;; m2" := (bind m1 (fun _ => m2))
  (at level 100, m2 at level 200, right associativity) : py_scope.
Local Open Scope py_scope.

(** The device part of a world, for statements about registers. *)
Definition register {K G} (w : world K G) (offset : Z) : option byte :=
  match ec w with
  | Unavailable _ => None
  | Registers mem => if offset <? 0 then None else mem !! Z.to_nat offset
  end.

(** ** gmk_fan.py: the menu program *)

Module GmkFan.

(** Computations of the menu program: typed lines as input, no globals. *)
Abbreviation Menu := (@M string unit).

Definition EC_PATH : string := "/sys/kernel/debug/ec/ec0/io".

Definition read_ec : Menu (option (list byte)) :=
  try_except
    (let* f := open_ec in
     let* data := lift (file_read_at f 0 256) in
     ret (Some data))
    [(is_Exception, fun e => print ("Read failed: " +:+ exn_msg e) ;; ret None)].

(** Write a byte to EC register *)
Definition write_ec (offset value : Z) : Menu bool :=
  try_except
    (let* f := open_ec in
     let* pos := lift (file_seek offset) in
     let* bs := lift (bytes1 (Z.land value 0xFF)) in
     let* f' := lift (file_write_at f pos bs) in
     set_ec (Registers f') ;;
     ret true)
    [(is_Exception, fun _ => ret false)].

Definition get_byte (data : list byte) (offset : Z) : result Z :=
  try_except_all (rbind (index data offset) (fun b => Ok (Z_of_byte b))) 0.

(** Get RPM value as little-endian 16-bit *)
Definition get_rpm_little_endian (data : list byte) (offset : Z) : result Z :=
  try_except_all (unpack_H_le (slice data offset (offset + 2))) 0.

Definition fan1_pct_map : list (Z * Z) := [(34, 20); (35, 40); (36, 60); (37, 80); (38, 100)].
Definition fan2_pct_map : list (Z * Z) := [(22, 100); (21, 80); (20, 60); (19, 40); (18, 20)].
Definition sysfan_pct_map : list (Z * Z) := [(54, 100); (53, 80); (52, 60); (51, 40); (50, 20)].

(** [d.get(k, 0)] *)
Definition get_or_0 (d : list (Z * Z)) (k : Z) : Z := default 0 (dict_get d k).

(** Monitor all fans *)
Definition monitor_all_fans : Menu unit :=
  let* data := read_ec in
  match data with
  | None | Some [] => print "Cannot read EC data"
  | Some data =>
      let* fan1_rpm_raw := lift (get_byte data 0x37) in
      let* fan2_rpm_raw := lift (get_byte data 0x35) in
      let* sysfan_rpm_raw := lift (get_byte data 0x28) in
      let fan1_rpm := fan1_rpm_raw * 267 in
      let fan2_rpm := fan2_rpm_raw * 267 in
      let sysfan_rpm := sysfan_rpm_raw * 317 in
      let* fan1_enable := lift (get_byte data 0x23) in
      let* fan1_speed := lift (get_byte data 0x24) in
      let* fan2_enable := lift (get_byte data 0x21) in
      let* fan2_speed := lift (get_byte data 0x22) in
      let* sysfan_enable := lift (get_byte data 0x25) in
      let* sysfan_speed := lift (get_byte data 0x26) in
      let fan1_pct := get_or_0 fan1_pct_map fan1_speed in
      let fan2_pct := get_or_0 fan2_pct_map fan2_speed in
      let sysfan_pct := get_or_0 sysfan_pct_map sysfan_speed in
      print "=== Complete Fan Status ===" ;;
      print ("Fan 1:   " +:+ fmt_d 4 fan1_rpm +:+ " RPM | PWM: " +:+ fmt_d 3 fan1_pct
             +:+ "% (0x24=" +:+ str fan1_speed +:+ ") [Enable: 0x23=" +:+ str fan1_enable +:+ "]") ;;
      print ("Fan 2:   " +:+ fmt_d 4 fan2_rpm +:+ " RPM | PWM: " +:+ fmt_d 3 fan2_pct
             +:+ "% (0x22=" +:+ str fan2_speed +:+ ") [Enable: 0x21=" +:+ str fan2_enable +:+ "]") ;;
      print ("Sysfan:  " +:+ fmt_d 4 sysfan_rpm +:+ " RPM | PWM: " +:+ fmt_d 3 sysfan_pct
             +:+ "% (0x26=" +:+ str sysfan_speed +:+ ") [Enable: 0x25=" +:+ str sysfan_enable +:+ "]") ;;
      print EmptyString ;;
      print "=== Fan Control System ===" ;;
      print "1. Fan 1: 0x23=33 (enable) + 0x24=34-38 (20-100%)" ;;
      print "2. Fan 2: 0x21=17 (enable) + 0x22=18-22 (20-100%)" ;;
      print "3. Sysfan: 0x25=49 (enable) + 0x26=50-54 (20-100%)" ;;
      print EmptyString ;;
      print "=== RPM Details (Your Exact Values) ===" ;;
      print ("Fan 1 RPM: 0x37 = " +:+ fmt_02X fan1_rpm_raw +:+ " = " +:+ str fan1_rpm +:+ " RPM") ;;
      print ("Fan 2 RPM: 0x35 = " +:+ fmt_02X fan2_rpm_raw +:+ " = " +:+ str fan2_rpm +:+ " RPM") ;;
      print ("Sysfan RPM: 0x28 = " +:+ fmt_02X sysfan_rpm_raw +:+ " = " +:+ str sysfan_rpm +:+ " RPM") ;;
      print EmptyString ;;
      print "=== Your RPM Mappings ===" ;;
      print "Fan 1 & 2: 0x0F=4000RPM, 0x0D=3200RPM, 0x0B=2400RPM, 0x09=1600RPM, 0x07=800RPM" ;;
      print "Sysfan: 0x06=1900RPM, 0x05=1500RPM, 0x04=1200RPM, 0x03=800RPM, 0x02=400RPM"
  end.

Definition fan1_mapping : list (Z * Z) := [(20, 34); (40, 35); (60, 36); (80, 37); (100, 38)].

(** Set Fan 1 speed *)
Definition set_fan1_percentage (percentage : Z) : Menu unit :=
  print "Setting Fan 1..." ;;
  let* closest := lift (min_by (fun x => Z.abs (x - percentage)) (map fst fan1_mapping)) in
  let* value := lift (dict_item fan1_mapping closest) in
  write_ec 0x23 33 ;;
  write_ec 0x24 value ;;
  print ("Set Fan 1 to " +:+ str closest +:+ "% (value: " +:+ str value +:+ ")").

(** Set Fan 2 speed *)
Definition set_fan2_percentage (percentage : Z) : Menu unit :=
  print "Setting Fan 2..." ;;
  let value :=
    if percentage <=? 20 then 18
    else if percentage <=? 40 then 19
    else if percentage <=? 60 then 20
    else if percentage <=? 80 then 21
    else 22 in
  write_ec 0x21 17 ;;
  write_ec 0x22 value ;;
  print ("Set Fan 2 to " +:+ str percentage +:+ "% (0x22=" +:+ str value +:+ ", 0x21=17)").

(** Set Sysfan speed *)
Definition set_sysfan_percentage (percentage : Z) : Menu unit :=
  print "Setting Sysfan..." ;;
  let value :=
    if percentage <=? 20 then 50
    else if percentage <=? 40 then 51
    else if percentage <=? 60 then 52
    else if percentage <=? 80 then 53
    else 54 in
  write_ec 0x25 49 ;;
  write_ec 0x26 value ;;
  print ("Set Sysfan to " +:+ str percentage +:+ "% (0x26=" +:+ str value +:+ ", 0x25=49)").

(** Set all fans to auto mode *)
Definition set_auto_mode : Menu unit :=
  print "Setting all fans to auto mode..." ;;
  write_ec 0x23 32 ;;
  write_ec 0x21 16 ;;
  write_ec 0x25 48 ;;
  print "All fans set to auto mode".

(** [input(prompt)]: the prompt is written, then the next typed line is
    returned; Ctrl+C raises [KeyboardInterrupt]; a closed standard input
    raises [EOFError]. *)
Fixpoint next_line (l : list (event string)) : result string * list (event string) :=
  match l with
  | [] => (Raise (Exn EOFError "EOF when reading a line"), [])
  | Input s :: rest => (Ok s, rest)
  | CtrlC :: rest => (Raise interrupt, rest)
  | Idle :: rest => next_line rest
  end.

Definition input (prompt : string) : Menu string :=
  emit (Written prompt) ;;
  fun w =>
    let (r, rest) := next_line (stdin w) in
    (r, World (ec w) rest (trace w) (globals w)).

Inductive control := Continue | Break.

(** The [while True] of menu entry 6; it only ends by an exception. *)
Fixpoint monitor_continuously (fuel : nat) : Menu unit :=
  match fuel with
  | O => unfinished
  | S fuel' =>
      os_system "clear" ;;
      monitor_all_fans ;;
      time_sleep 2000 ;;
      monitor_continuously fuel'
  end.

Definition print_menu : Menu unit :=
  print EmptyString ;;
  print "=== Fan Control ===" ;;
  print "1. Set Fan 1 percentage" ;;
  print "2. Set Fan 2 percentage" ;;
  print "3. Set Sysfan percentage" ;;
  print "4. Set all fans" ;;
  print "5. Set auto mode (BIOS control)" ;;
  print "6. Monitor continuously" ;;
  print "q. Quit".

(** The [try] block of [main]: one prompt and the action chosen. *)
Definition choose (fuel : nat) : Menu control :=
  let* line := input "Enter choice: " in
  let choice := strip line in
  if String.eqb choice "q" then ret Break
  else if String.eqb choice "1" then
    let* s := input "Enter Fan 1 percentage (20-100): " in
    let* pct := lift (int s) in
    set_fan1_percentage pct ;;
    ret Continue
  else if String.eqb choice "2" then
    let* s := input "Enter Fan 2 percentage (20-100): " in
    let* pct := lift (int s) in
    set_fan2_percentage pct ;;
    ret Continue
  else if String.eqb choice "3" then
    let* s := input "Enter Sysfan percentage (20-100): " in
    let* pct := lift (int s) in
    set_sysfan_percentage pct ;;
    ret Continue
  else if String.eqb choice "4" then
    let* s1 := input "Enter Fan 1 percentage (20-100): " in
    let* fan1_pct := lift (int s1) in
    let* s2 := input "Enter Fan 2 percentage (20-100): " in
    let* fan2_pct := lift (int s2) in
    let* s3 := input "Enter Sysfan percentage (20-100): " in
    let* sysfan_pct := lift (int s3) in
    set_fan1_percentage fan1_pct ;;
    set_fan2_percentage fan2_pct ;;
    set_sysfan_percentage sysfan_pct ;;
    ret Continue
  else if String.eqb choice "5" then
    set_auto_mode ;;
    ret Continue
  else if String.eqb choice "6" then
    print "Monitoring... Press Ctrl+C to return to menu" ;;
    try_except (monitor_continuously fuel)
      [(is_KeyboardInterrupt, fun _ => ret tt)] ;;
    ret Continue
  else ret Continue.

(** One turn of the [while True] of [main]. *)
Definition main_turn (fuel : nat) : Menu control :=
  os_system "clear" ;;
  monitor_all_fans ;;
  print_menu ;;
  try_except (choose fuel)
    [(is_KeyboardInterrupt, fun _ => ret Break);
     (is_Exception, fun e =>
        print ("Error: " +:+ exn_msg e) ;;
        time_sleep 2000 ;;
        ret Continue)].

Fixpoint main (fuel : nat) : Menu unit :=
  match fuel with
  | O => unfinished
  | S fuel' =>
      let* c := main_turn fuel' in
      match c with
      | Break => ret tt
      | Continue => main fuel'
      end
  end.

End GmkFan.

(** ** ec_fans_monitor.py: the one-line monitor *)

Module EcFansMonitor.

(** Computations of the monitor: key presses as input, and the global
    dictionary [PWM_VALUES]. *)
Abbreviation Mon := (@M ascii (gmap Z Z)).

(** RPM registers *)
Definition RPM_OFFSETS : list Z := [0x28; 0x34; 0x36].

(** Candidate PWM offsets *)
Definition PWM_OFFSETS : list Z := [0x06; 0x07; 0x08; 0x09; 0x0A; 0x0B; 0x0C; 0x0D; 0x0E].

Definition read_byte (offset : Z) : Mon Z :=
  let* f := open_ec in
  let* bs := lift (file_read_at f offset 1) in
  lift (unpack_B bs).

Definition read_word (offset : Z) : Mon Z :=
  let* f := open_ec in
  let* bs := lift (file_read_at f offset 2) in
  lift (unpack_H_le bs).

Definition write_byte (offset value : Z) : Mon unit :=
  let* f := open_ec in
  let* pos := lift (file_seek offset) in
  let* bs := lift (pack_B value) in
  let* f' := lift (file_write_at f pos bs) in
  set_ec (Registers f').

(** [sys.stdin in select.select([sys.stdin], [], [], 0)[0]]: a key is
    pending. *)
Definition stdin_ready : Mon bool :=
  fun w =>
    match stdin w with
    | Input _ :: _ => (Ok true, w)
    | _ => (Ok false, w)
    end.

(** One character from the terminal; called only when a key is pending. An
    exhausted input reads as the empty string. *)
Definition getch : Mon string :=
  fun w =>
    match stdin w with
    | Input c :: rest =>
        (Ok (String c EmptyString), World (ec w) rest (trace w) (globals w))
    | _ => (Ok EmptyString, w)
    end.

(** Map fan index to a chosen PWM offset: SysFan, Fan1, Fan2. *)
Definition FAN_PWM_MAP : list (Z * Z) := [(0, 0x07); (1, 0x08); (2, 0x09)].

(** [{fan: read_byte(offset) for fan, offset in items}] *)
Fixpoint read_pwm_values (items : list (Z * Z)) (acc : gmap Z Z) : Mon (gmap Z Z) :=
  match items with
  | [] => ret acc
  | (fan, offset) :: items' =>
      let* v := read_byte offset in
      read_pwm_values items' (<[fan := v]> acc)
  end.

(** [PWM_VALUES[fan]] *)
Definition PWM_VALUES (fan : Z) : Mon Z :=
  let* d := get_globals in
  match d !! fan with
  | Some v => ret v
  | None => raise (Exn KeyError (str fan))
  end.

(** [PWM_VALUES[fan] = v] *)
Definition set_PWM_VALUES (fan v : Z) : Mon unit :=
  let* d := get_globals in
  set_globals (<[fan := v]> d).

(** [[read_word(off) for off in offsets]] *)
Fixpoint read_words (offsets : list Z) : Mon (list Z) :=
  match offsets with
  | [] => ret []
  | off :: offsets' =>
      let* r := read_word off in
      let* rs := read_words offsets' in
      ret (r :: rs)
  end.

Definition cr : string := String (ascii_of_nat 13) EmptyString.
Definition nl : string := String (ascii_of_nat 10) EmptyString.

(** The status line; the SysFan field is [int(rpms[0]/22)]. *)
Definition status_line (rpms : list Z) (pwm : Z) : result string :=
  rbind (index rpms 0) (fun r0 =>
  rbind (int_of_float (truediv r0 22)) (fun sysfan =>
  rbind (index rpms 1) (fun r1 =>
  rbind (index rpms 2) (fun r2 =>
  Ok (cr +:+ "SysFan: " +:+ fmt_d 5 sysfan +:+ " | Fan1: " +:+ fmt_d 5 r1
      +:+ " | Fan2: " +:+ fmt_d 5 r2 +:+ " | PWM: " +:+ fmt_d 3 pwm +:+ " "))))).

(** The key dispatch. Line 75 of the script carries the two statements of
    the ["s"] branch on one physical line; they are taken as the assignment
    followed by the write, as in the ["w"] branch. *)
Definition on_key (c : string) (selected_fan : Z) : Mon Z :=
  if existsb (String.eqb c) ["1"; "2"; "3"]%string then
    let* n := lift (int c) in
    ret (n - 1)
  else if String.eqb c "w" then
    let* v := PWM_VALUES selected_fan in
    set_PWM_VALUES selected_fan (Z.min (v + 10) 255) ;;
    let* off := lift (dict_item FAN_PWM_MAP selected_fan) in
    let* v' := PWM_VALUES selected_fan in
    write_byte off v' ;;
    ret selected_fan
  else if String.eqb c "s" then
    let* v := PWM_VALUES selected_fan in
    set_PWM_VALUES selected_fan (Z.max (v - 10) 0) ;;
    let* off := lift (dict_item FAN_PWM_MAP selected_fan) in
    let* v' := PWM_VALUES selected_fan in
    write_byte off v' ;;
    ret selected_fan
  else ret selected_fan.

(** One turn of the polling loop; the result is the selected fan. *)
Definition poll (selected_fan : Z) : Mon Z :=
  let* rpms := read_words RPM_OFFSETS in
  let* pwm := PWM_VALUES selected_fan in
  let* line := lift (status_line rpms pwm) in
  emit (Written line) ;;
  time_sleep 500 ;;
  let* ready := stdin_ready in
  if ready then
    let* c := getch in
    on_key c selected_fan
  else ret selected_fan.


(** [for fan, offset in items: write_byte(offset, PWM_VALUES[fan])] *)
Fixpoint write_pwm_values (items : list (Z * Z)) : Mon unit :=
  match items with
  | [] => ret tt
  | (fan, offset) :: items' =>
      let* v := PWM_VALUES fan in
      write_byte offset v ;;
      write_pwm_values items'
  end.


End EcFansMonitor.

(** * Vocabulary of the statements *)

(** [int(x / 22)], computed with floats, is the integer quotient of [x]
    by 22. *)
Definition truncated_quotient_agrees (x : Z) : bool :=
  match int_of_float (truediv x 22) with
  | Ok v => v =? x / 22
  | _ => false
  end.

(** The check on the [n] integers from [x] on. *)
Fixpoint agrees_from (n : nat) (x : Z) : bool :=
  match n with
  | O => true
  | S n' => truncated_quotient_agrees x && agrees_from n' (x + 1)
  end.

(** A register file of 256 zero bytes. *)
Definition blank_registers : list byte := repeat "000"%byte 256.


(** The text of the [OSError] for a missing device file. *)
Definition no_device : string := "[Errno 2] No such file or directory".


(** A register file whose SysFan PWM register holds 100 when the monitor
    starts. *)
Definition sysfan_at_100 : list byte := <[7%nat := "d"%byte]> blank_registers.

(** The percentage buckets of the duty-cycle tables. *)
Definition buckets : list Z := [20; 40; 60; 80; 100].

(** [b] is a bucket nearest to [p]. *)
Definition closest_bucket (p b : Z) : Prop :=
  In b buckets /\ forall b', In b' buckets -> Z.abs (b - p) <= Z.abs (b' - p).

(** [b] is the least bucket that is not below [p], or the top bucket when
    [p] is above all of them. *)
Definition round_up_bucket (p b : Z) : Prop :=
  In b buckets /\ (p <= b \/ b = 100) /\
  forall b', In b' buckets -> p <= b' -> b <= b'.


(** The part of a turn of [main] before the prompt: clear the screen, show
    the status, show the menu. *)
Definition redraw : GmkFan.Menu unit :=
  os_system "clear" ;; GmkFan.monitor_all_fans ;; GmkFan.print_menu.




(** The byte at [offset] of a register file, as an integer. *)
Definition raw_byte (mem : list byte) (offset : Z) : Z :=
  Z_of_byte (nth (Z.to_nat offset) mem "000"%byte).

(** The little-endian word at [offset]. *)
Definition raw_word (mem : list byte) (offset : Z) : Z :=
  raw_byte mem offset + 256 * raw_byte mem (offset + 1).

(** Registers of a running machine: 0x0F in the Fan 1 and Fan 2 tachometer
    bytes 0x37 and 0x35, and the word 0x0626 at 0x28. *)
Definition running_registers : list byte :=
  <[0x37%nat := "015"%byte]> (<[0x35%nat := "015"%byte]>
    (<[0x29%nat := "006"%byte]> (<[0x28%nat := "&"%byte]> blank_registers))).

(** The monitor's bookkeeping agrees with the device: the register file has
    256 bytes, [PWM_VALUES] holds a value in [0,255] for each of the fans
    0, 1 and 2, and the PWM register of each fan holds that value. *)
Definition mirrored (w : world ascii (gmap Z Z)) : Prop :=
  exists mem,
    ec w = Registers mem /\ length mem = 256%nat /\
    forall fan, 0 <= fan <= 2 ->
      exists v, globals w !! fan = Some v /\ 0 <= v <= 255 /\
                register w (fan + 7) = byte_of_Z v.



(** * Properties *)

(** ** Bytes and integers *)

Section Bytes.

Lemma Z_of_byte_range (b : byte) : 0 <= Z_of_byte b <= 255.
Proof.
  unfold Z_of_byte. pose proof (Byte.to_N_bounded b). lia.
Qed.

Lemma byte_of_Z_of_byte (b : byte) : byte_of_Z (Z_of_byte b) = Some b.
Proof.
  unfold byte_of_Z, Z_of_byte.
  destruct (Z.ltb_spec (Z.of_N (Byte.to_N b)) 0) as [Hneg | _]; [lia |].
  rewrite N2Z.id. apply Byte.of_to_N.
Qed.

Lemma byte_of_Z_inv (z : Z) (b : byte) : byte_of_Z z = Some b -> Z_of_byte b = z.
Proof.
  unfold byte_of_Z, Z_of_byte.
  destruct (Z.ltb_spec z 0) as [Hneg | Hpos]; [discriminate |].
  intros H. apply Byte.to_of_N in H. rewrite H. lia.
Qed.

Lemma byte_of_Z_in_range (z : Z) :
  0 <= z <= 255 -> exists b, byte_of_Z z = Some b /\ Z_of_byte b = z.
Proof.
  intros Hz. unfold byte_of_Z.
  destruct (Z.ltb_spec z 0) as [Hneg | _]; [lia |].
  pose proof (Byte.to_of_N_option_map (Z.to_N z)) as Hmap.
  destruct (N.leb_spec (Z.to_N z) 255) as [_ | Hgt]; [| lia].
  destruct (Byte.of_N (Z.to_N z)) as [b |] eqn:Hb; [| discriminate].
  exists b. split; [reflexivity |].
  unfold Z_of_byte. apply Byte.to_of_N in Hb. rewrite Hb. lia.
Qed.


(** [value & 0xFF] is the residue modulo 256, also on negative integers. *)
Lemma land_0xFF (value : Z) : Z.land value 0xFF = value mod 256.
Proof.
  change 0xFF with (Z.ones 8). rewrite Z.land_ones by lia. reflexivity.
Qed.

Lemma land_0xFF_range (value : Z) : 0 <= Z.land value 0xFF <= 255.
Proof.
  rewrite land_0xFF. pose proof (Z.mod_pos_bound value 256). lia.
Qed.

End Bytes.

(** ** True division by 22 on a 16-bit word *)

Lemma agrees_from_spec (n : nat) :
  forall x y, agrees_from n x = true -> x <= y < x + Z.of_nat n ->
  truncated_quotient_agrees y = true.
Proof.
  induction n as [| n IH]; intros x y Hall Hy; simpl in Hall.
  - lia.
  - apply andb_true_iff in Hall as [Hx Hrest].
    destruct (Z.eq_dec x y) as [-> | Hne]; [exact Hx |].
    apply (IH (x + 1)); [exact Hrest | lia].
Qed.

Lemma truncated_quotient_all_words : agrees_from (Z.to_nat 65536) 0 = true.
Proof. vm_compute. reflexivity. Qed.

(** On a 16-bit word, [int(x / 22)] is the integer quotient. *)
Lemma int_truediv_22 (x : Z) :
  0 <= x <= 65535 -> int_of_float (truediv x 22) = Ok (x / 22).
Proof.
  intros Hx.
  assert (Hagree : truncated_quotient_agrees x = true).
  { apply (agrees_from_spec (Z.to_nat 65536) 0); [apply truncated_quotient_all_words | lia]. }
  unfold truncated_quotient_agrees in Hagree.
  destruct (int_of_float (truediv x 22)) as [v | e |]; try discriminate.
  apply Z.eqb_eq in Hagree. congruence.
Qed.
(** ** The register accessors of the menu program *)

Lemma write_ec_eq (offset value : Z) (w : world string unit) :
  GmkFan.write_ec offset value w =
  match ec w, byte_of_Z (Z.land value 0xFF) with
  | Registers mem, Some b =>
      if (0 <=? offset) && (offset <? Z.of_nat (length mem))
      then (Ok true,
            World (Registers (<[Z.to_nat offset := b]> mem)) (stdin w) (trace w) (globals w))
      else (Ok false, w)
  | _, _ => (Ok false, w)
  end.
Proof.
  unfold GmkFan.write_ec, try_except, bind, open_ec, lift, file_seek, bytes1,
    file_write_at, set_ec, ret.
  destruct (ec w) as [err | mem] eqn:Hec; [reflexivity |].
  destruct (Z.ltb_spec offset 0) as [Hneg | Hpos];
    [destruct (byte_of_Z _); [destruct (Z.leb_spec 0 offset); [lia |] |]; reflexivity |].
  destruct (byte_of_Z (Z.land value 0xFF)) as [b |]; [| reflexivity].
  destruct (Z.ltb_spec offset 0) as [Hneg | _]; [lia |].
  cbn [length store].
  destruct (Z.leb_spec 0 offset) as [_ | Hneg]; [| lia].
  destruct (Z.ltb_spec (Z.of_nat (length mem)) (offset + Z.of_nat 1)) as [Hout | Hin];
    destruct (Z.ltb_spec offset (Z.of_nat (length mem))) as [Hin' | Hout']; try lia;
    reflexivity.
Qed.

Lemma write_ec_in_range (offset value : Z) (w : world string unit) (mem : list byte) :
  ec w = Registers mem -> 0 <= offset < Z.of_nat (length mem) -> 0 <= value <= 255 ->
  exists b, byte_of_Z value = Some b /\
    GmkFan.write_ec offset value w =
    (Ok true, World (Registers (<[Z.to_nat offset := b]> mem)) (stdin w) (trace w) (globals w)).
Proof.
  intros Hec Hoff Hval.
  destruct (byte_of_Z_in_range value Hval) as [b [Hb _]].
  exists b. split; [exact Hb |].
  rewrite write_ec_eq, Hec, land_0xFF, Z.mod_small by lia. rewrite Hb.
  destruct (Z.leb_spec 0 offset); [| lia].
  destruct (Z.ltb_spec offset (Z.of_nat (length mem))); [| lia].
  reflexivity.
Qed.

Lemma register_insert_eq {K G} (w : world K G) (mem : list byte) (offset : Z) (b : byte) :
  ec w = Registers (<[Z.to_nat offset := b]> mem) ->
  0 <= offset < Z.of_nat (length mem) ->
  register w offset = Some b.
Proof.
  intros Hec Hoff. unfold register. rewrite Hec.
  destruct (Z.ltb_spec offset 0); [lia |].
  apply list_lookup_insert_eq. lia.
Qed.

Lemma register_insert_ne {K G} (w w' : world K G) (mem : list byte) (offset o : Z)
    (b : byte) :
  ec w = Registers mem -> ec w' = Registers (<[Z.to_nat offset := b]> mem) ->
  0 <= offset -> o <> offset ->
  register w' o = register w o.
Proof.
  intros Hec Hec' Hoff Hne. unfold register. rewrite Hec, Hec'.
  destruct (Z.ltb_spec o 0); [reflexivity |].
  apply list_lookup_insert_ne. lia.
Qed.

Lemma set_auto_mode_run (w : world string unit) (mem : list byte) :
  ec w = Registers mem -> length mem = 256%nat ->
  exists b32 b16 b48, byte_of_Z 32 = Some b32 /\ byte_of_Z 16 = Some b16 /\ byte_of_Z 48 = Some b48 /\
  GmkFan.set_auto_mode w = (Ok tt, World (Registers (<[37%nat := b48]> (<[33%nat := b16]> (<[35%nat := b32]> mem)))) (stdin w) 
    (trace w ++ [Printed "Setting all fans to auto mode..."; Printed "All fans set to auto mode"]) (globals w)).
Proof.
  intros Hec Hlen.
  unfold GmkFan.set_auto_mode.
  unfold bind at 1. unfold print at 1, emit at 1. 
  set (w1 := World _ _ _ _).
  destruct (write_ec_in_range 0x23 32 w1 mem) as [b32 [H32 E1]]; [exact Hec | lia | lia |].
  unfold bind at 1. rewrite E1. 
  set (w2 := World _ _ _ _).
  destruct (write_ec_in_range 0x21 16 w2 (<[35%nat := b32]> mem)) as [b16 [H16 E2]]; [reflexivity | rewrite length_insert; lia | lia |].
  unfold bind at 1. rewrite E2.
  set (w3 := World _ _ _ _).
  destruct (write_ec_in_range 0x25 48 w3 (<[33%nat := b16]> (<[35%nat := b32]> mem))) as [b48 [H48 E3]]; [reflexivity | rewrite !length_insert; lia | lia |].
  unfold bind at 1. rewrite E3.
  exists b32, b16, b48. repeat split; try assumption.
  unfold print, emit. cbn. rewrite <- app_assoc. reflexivity.
Qed.

Lemma read_ec_eq (w : world string unit) :
  GmkFan.read_ec w =
  match ec w with
  | Unavailable err =>
      (Ok None,
       World (ec w) (stdin w) (trace w ++ [Printed ("Read failed: " +:+ err)]) (globals w))
  | Registers mem => (Ok (Some (take 256 mem)), w)
  end.
Proof.
  unfold GmkFan.read_ec, try_except, bind, open_ec, lift, file_read_at, ret.
  destruct (ec w) as [err | mem] eqn:Hec; [| reflexivity].
  cbn. unfold print, emit, bind, ret. cbn. rewrite Hec. reflexivity.
Qed.

Lemma index_nonneg {A} (l : list A) (i : Z) (x : A) :
  0 <= i -> l !! Z.to_nat i = Some x -> index l i = Ok x.
Proof.
  intros Hi Hx. unfold index.
  pose proof (lookup_lt_Some _ _ _ Hx) as Hlt.
  destruct (Z.ltb_spec i 0); [lia |].
  destruct (Z.leb_spec 0 i); [| lia].
  destruct (Z.ltb_spec i (Z.of_nat (length l))); [| lia].
  cbn. rewrite Hx. reflexivity.
Qed.

Lemma index_unavailable {A} (l : list A) (i : Z) :
  i < - Z.of_nat (length l) \/ Z.of_nat (length l) <= i ->
  exists e, index l i = Raise e.
Proof.
  intros Hi. unfold index.
  destruct (Z.ltb_spec i 0).
  - destruct (Z.leb_spec 0 (i + Z.of_nat (length l))); [| cbn; eauto].
    destruct (Z.ltb_spec (i + Z.of_nat (length l)) (Z.of_nat (length l))); [| cbn; eauto].
    lia.
  - destruct (Z.leb_spec 0 i); [| lia].
    destruct (Z.ltb_spec i (Z.of_nat (length l))); [lia |]. cbn; eauto.
Qed.

Lemma get_byte_nonneg (data : list byte) (offset : Z) (b : byte) :
  0 <= offset -> data !! Z.to_nat offset = Some b ->
  GmkFan.get_byte data offset = Ok (Z_of_byte b).
Proof.
  intros Hoff Hb. unfold GmkFan.get_byte.
  rewrite (index_nonneg data offset b Hoff Hb). reflexivity.
Qed.

(** ** C10: the byte and word accessors are total *)

(** C10. For every byte string [data] and integer [offset], [get_byte] and
    [get_rpm_little_endian] return a value and never raise: [get_byte] gives
    an integer in [0,255], the byte at a non-negative offset inside the data
    and the sentinel 0 when the index is out of range;
    [get_rpm_little_endian] gives an integer in [0,65535], the little-endian
    word of a two-byte slice and the sentinel 0 when the slice at the offset
    does not hold two bytes. *)
Theorem get_byte_get_rpm_total (data : list byte) (offset : Z) :
  (exists v, GmkFan.get_byte data offset = Ok v /\ 0 <= v <= 255 /\
     (forall b, 0 <= offset -> data !! Z.to_nat offset = Some b -> v = Z_of_byte b) /\
     (offset < - Z.of_nat (length data) \/ Z.of_nat (length data) <= offset -> v = 0)) /\
  (exists r, GmkFan.get_rpm_little_endian data offset = Ok r /\ 0 <= r <= 65535 /\
     (forall lo hi, slice data offset (offset + 2) = [lo; hi] ->
        r = Z_of_byte lo + 256 * Z_of_byte hi) /\
     (length (slice data offset (offset + 2)) <> 2%nat -> r = 0)).
Proof.
  split.
  - unfold GmkFan.get_byte.
    destruct (index data offset) as [b | e |] eqn:Hidx; cbn.
    + exists (Z_of_byte b).
      split; [reflexivity | split; [apply Z_of_byte_range | split]].
      * intros b' Hoff Hb'. rewrite (index_nonneg data offset b' Hoff Hb') in Hidx.
        congruence.
      * intros Hout. destruct (index_unavailable data offset Hout) as [e He]. congruence.
    + exists 0. split; [reflexivity | split; [lia | split]].
      * intros b' Hoff Hb'. rewrite (index_nonneg data offset b' Hoff Hb') in Hidx.
        discriminate.
      * reflexivity.
    + unfold index in Hidx.
      repeat match type of Hidx with
             | context [if ?c then _ else _] => destruct c
             | context [match ?o with Some _ => _ | None => _ end] => destruct o
             end; discriminate.
  - unfold GmkFan.get_rpm_little_endian, unpack_H_le.
    destruct (slice data offset (offset + 2)) as [| lo [| hi [| x rest]]]; cbn.
    + exists 0. split; [reflexivity | split; [lia | split]]; [discriminate | reflexivity].
    + exists 0. split; [reflexivity | split; [lia | split]]; [discriminate | reflexivity].
    + exists (Z_of_byte lo + 256 * Z_of_byte hi).
      pose proof (Z_of_byte_range lo). pose proof (Z_of_byte_range hi).
      split; [reflexivity | split; [lia | split]].
      * intros lo' hi' H'. congruence.
      * intros Hlen. contradiction Hlen. reflexivity.
    + exists 0. split; [reflexivity | split; [lia | split]]; [discriminate | reflexivity].
Qed.

Lemma get_byte_get_rpm_total_witness :
  GmkFan.get_byte ["a"%byte; "b"%byte; "c"%byte] 1 = Ok 98 /\
  GmkFan.get_byte ["a"%byte; "b"%byte; "c"%byte] 3 = Ok 0 /\
  GmkFan.get_rpm_little_endian ["a"%byte; "b"%byte; "c"%byte] 1 = Ok (98 + 256 * 99) /\
  GmkFan.get_rpm_little_endian ["a"%byte; "b"%byte; "c"%byte] 2 = Ok 0.
Proof.
  destruct (get_byte_get_rpm_total ["a"%byte; "b"%byte; "c"%byte] 1)
    as [[v [Hv [_ [Hin _]]]] [r [Hr [_ [Hword _]]]]].
  destruct (get_byte_get_rpm_total ["a"%byte; "b"%byte; "c"%byte] 3)
    as [[v' [Hv' [_ [_ Hout]]]] _].
  destruct (get_byte_get_rpm_total ["a"%byte; "b"%byte; "c"%byte] 2)
    as [_ [r' [Hr' [_ [_ Hshort]]]]].
  rewrite Hv, Hv', Hr, Hr'.
  rewrite (Hin "b"%byte) by (cbn; first [lia | reflexivity]).
  rewrite Hout by (right; vm_compute; discriminate).
  rewrite (Hword "b"%byte "c"%byte) by reflexivity.
  rewrite Hshort by (vm_compute; discriminate).
  repeat split.
Defined.

(** ** C9: what a successful [write_ec] stores *)

(** C9. For every offset and every integer value, also outside [0,255], a
    [write_ec] that reports success has stored exactly one byte, at the given
    offset, and that byte is [value mod 256] (which is [value & 0xFF]), hence
    in [0,255]; every other register keeps its content. *)
Theorem write_ec_stores_low_byte (offset value : Z) (w w' : world string unit) :
  GmkFan.write_ec offset value w = (Ok true, w') ->
  exists mem b,
    ec w = Registers mem /\
    0 <= offset < Z.of_nat (length mem) /\
    Z_of_byte b = Z.land value 0xFF /\
    Z_of_byte b = value mod 256 /\
    0 <= Z_of_byte b <= 255 /\
    ec w' = Registers (<[Z.to_nat offset := b]> mem) /\
    register w' offset = Some b /\
    (forall o, o <> offset -> register w' o = register w o) /\
    stdin w' = stdin w /\ trace w' = trace w.
Proof.
  rewrite write_ec_eq.
  destruct (ec w) as [err | mem] eqn:Hec; [discriminate |].
  destruct (byte_of_Z (Z.land value 0xFF)) as [b |] eqn:Hb; [| discriminate].
  destruct (Z.leb_spec 0 offset) as [Hpos | Hneg]; [| discriminate].
  destruct (Z.ltb_spec offset (Z.of_nat (length mem))) as [Hin | Hout]; [| discriminate].
  cbn. intros Hrun. injection Hrun as <-.
  exists mem, b. apply byte_of_Z_inv in Hb.
  split; [reflexivity |]. split; [lia |]. split; [exact Hb |].
  split; [rewrite Hb; apply land_0xFF |]. split; [apply Z_of_byte_range |].
  split; [reflexivity |].
  split; [apply (register_insert_eq _ mem); [reflexivity | lia] |].
  split; [| split; reflexivity].
  intros o Ho. apply (register_insert_ne w _ mem offset o b); [exact Hec | reflexivity | lia | exact Ho].
Qed.

Lemma write_ec_stores_low_byte_witness :
  exists w', GmkFan.write_ec 0x24 (-1) (World (Registers blank_registers) [] [] tt) = (Ok true, w')
    /\ register w' 0x24 = Some "255"%byte.
Proof.
  eexists. split; [reflexivity |].
  destruct (write_ec_stores_low_byte 0x24 (-1) (World (Registers blank_registers) [] [] tt) _ eq_refl)
    as [mem [b [Hec [_ [Hland [_ [_ [_ [Hreg _]]]]]]]]].
  rewrite Hreg. f_equal.
  apply (f_equal byte_of_Z) in Hland. rewrite byte_of_Z_of_byte in Hland.
  injection Hland as ->. reflexivity.
Defined.

(** ** C6: auto mode *)

(** C6. Whatever the registers hold, [set_auto_mode] stores 32 at offset
    0x23, 16 at offset 0x21 and 48 at offset 0x25 of an EC register file of
    256 bytes, and leaves every other register as it was. *)
Theorem set_auto_mode_writes (w : world string unit) (mem : list byte) :
  ec w = Registers mem -> length mem = 256%nat ->
  exists w',
    GmkFan.set_auto_mode w = (Ok tt, w') /\
    register w' 0x23 = byte_of_Z 32 /\
    register w' 0x21 = byte_of_Z 16 /\
    register w' 0x25 = byte_of_Z 48 /\
    (forall o, o <> 0x23 -> o <> 0x21 -> o <> 0x25 -> register w' o = register w o) /\
    stdin w' = stdin w /\
    trace w' = trace w ++ [Printed "Setting all fans to auto mode...";
                           Printed "All fans set to auto mode"].
Proof.
  intros Hec Hlen.
  destruct (set_auto_mode_run w mem Hec Hlen) as [b32 [b16 [b48 [H32 [H16 [H48 Hrun]]]]]].
  eexists. split; [exact Hrun |].
  unfold register. cbn [ec stdin trace]. rewrite Hec, H32, H16, H48. cbn.
  split; [| split; [| split; [| split; [| split; reflexivity]]]].
  - rewrite !list_lookup_insert_ne by lia. apply list_lookup_insert_eq. lia.
  - rewrite list_lookup_insert_ne by lia. apply list_lookup_insert_eq.
    rewrite length_insert. lia.
  - apply list_lookup_insert_eq. rewrite !length_insert. lia.
  - intros o H23 H21 H25. destruct (Z.ltb_spec o 0); [reflexivity |].
    rewrite !list_lookup_insert_ne by lia. reflexivity.
Qed.

Lemma set_auto_mode_writes_witness :
  exists w',
    GmkFan.set_auto_mode (World (Registers blank_registers) [] [] tt) = (Ok tt, w') /\
    register w' 0x23 = Some " "%byte /\ register w' 0x24 = Some "000"%byte.
Proof.
  destruct (set_auto_mode_writes (World (Registers blank_registers) [] [] tt) blank_registers
              eq_refl eq_refl) as [w' [Hrun [H23 [_ [_ [Hother _]]]]]].
  exists w'. split; [exact Hrun |]. split; [exact H23 |].
  rewrite (Hother 0x24) by lia. reflexivity.
Defined.

(** ** The register accessors of the monitor *)

Lemma read_byte_eq (offset : Z) (w : world ascii (gmap Z Z)) :
  EcFansMonitor.read_byte offset w =
  match ec w with
  | Unavailable err => (Raise (Exn OSError err), w)
  | Registers mem =>
      if offset <? 0 then (Raise EINVAL, w)
      else (unpack_B (take 1 (drop (Z.to_nat offset) mem)), w)
  end.
Proof.
  unfold EcFansMonitor.read_byte, bind, open_ec, lift, file_read_at.
  destruct (ec w) as [err | mem]; [reflexivity |].
  destruct (offset <? 0); [reflexivity |].
  destruct (unpack_B _); reflexivity.
Qed.

Lemma read_word_eq (offset : Z) (w : world ascii (gmap Z Z)) :
  EcFansMonitor.read_word offset w =
  match ec w with
  | Unavailable err => (Raise (Exn OSError err), w)
  | Registers mem =>
      if offset <? 0 then (Raise EINVAL, w)
      else (unpack_H_le (take 2 (drop (Z.to_nat offset) mem)), w)
  end.
Proof.
  unfold EcFansMonitor.read_word, bind, open_ec, lift, file_read_at.
  destruct (ec w) as [err | mem]; [reflexivity |].
  destruct (offset <? 0); [reflexivity |].
  destruct (unpack_H_le _); reflexivity.
Qed.

Lemma write_byte_eq (offset value : Z) (w : world ascii (gmap Z Z)) :
  EcFansMonitor.write_byte offset value w =
  match ec w with
  | Unavailable err => (Raise (Exn OSError err), w)
  | Registers mem =>
      if offset <? 0 then (Raise EINVAL, w)
      else match byte_of_Z value with
           | None =>
               (Raise (Exn StructError "ubyte format requires 0 <= number <= 255"), w)
           | Some b =>
               if offset <? Z.of_nat (length mem)
               then (Ok tt, World (Registers (<[Z.to_nat offset := b]> mem))
                              (stdin w) (trace w) (globals w))
               else (Raise EINVAL, w)
           end
  end.
Proof.
  unfold EcFansMonitor.write_byte, bind, open_ec, lift, file_seek, pack_B,
    file_write_at, set_ec.
  destruct (ec w) as [err | mem]; [reflexivity |].
  destruct (Z.ltb_spec offset 0) as [Hneg | Hpos]; [reflexivity |].
  destruct (byte_of_Z value) as [b |]; [| reflexivity].
  destruct (Z.ltb_spec offset 0) as [Hneg | _]; [lia |].
  cbn [length store].
  destruct (Z.ltb_spec (Z.of_nat (length mem)) (offset + Z.of_nat 1)) as [Hout | Hin];
    destruct (Z.ltb_spec offset (Z.of_nat (length mem))) as [Hin' | Hout']; try lia;
    reflexivity.
Qed.

Lemma take_1_drop (mem : list byte) (n : nat) (b : byte) :
  mem !! n = Some b -> take 1 (drop n mem) = [b].
Proof.
  intros Hb. rewrite (drop_S _ _ _ Hb). cbn. rewrite take_0. reflexivity.
Qed.

Lemma take_2_drop (mem : list byte) (n : nat) (lo hi : byte) :
  mem !! n = Some lo -> mem !! S n = Some hi -> take 2 (drop n mem) = [lo; hi].
Proof.
  intros Hlo Hhi. rewrite (drop_S _ _ _ Hlo), (drop_S _ _ _ Hhi). cbn.
  rewrite take_0. reflexivity.
Qed.

Lemma read_byte_register (offset : Z) (w : world ascii (gmap Z Z)) (b : byte) :
  register w offset = Some b ->
  EcFansMonitor.read_byte offset w = (Ok (Z_of_byte b), w).
Proof.
  unfold register. rewrite read_byte_eq.
  destruct (ec w) as [err | mem]; [discriminate |].
  destruct (offset <? 0); [discriminate |].
  intros Hb. rewrite (take_1_drop _ _ _ Hb). reflexivity.
Qed.

(** ** C5: a write followed by a read *)

(** C5. With the device file a 256-byte register array, for every offset in
    [0,255] and byte value in [0,255]: in the monitor, [write_byte] followed
    by [read_byte] at the same offset returns the written value; in the menu
    program, [write_ec] followed by [read_ec] and [get_byte] at the same
    offset returns it; and in both the write leaves every other offset
    unchanged. *)
Theorem write_then_read (mem : list byte) (offset value : Z) :
  length mem = 256%nat -> 0 <= offset <= 255 -> 0 <= value <= 255 ->
  (forall w : world ascii (gmap Z Z), ec w = Registers mem ->
     exists w',
       EcFansMonitor.write_byte offset value w = (Ok tt, w') /\
       EcFansMonitor.read_byte offset w' = (Ok value, w') /\
       (EcFansMonitor.write_byte offset value ;; EcFansMonitor.read_byte offset) w
         = (Ok value, w') /\
       (forall o, o <> offset -> register w' o = register w o)) /\
  (forall w : world string unit, ec w = Registers mem ->
     exists w' data,
       GmkFan.write_ec offset value w = (Ok true, w') /\
       GmkFan.read_ec w' = (Ok (Some data), w') /\
       GmkFan.get_byte data offset = Ok value /\
       length data = 256%nat /\
       (forall o, o <> offset -> register w' o = register w o)).
Proof.
  intros Hlen Hoff Hval.
  destruct (byte_of_Z_in_range value Hval) as [b [Hb HbZ]].
  split.
  - intros w Hec.
    assert (Hw : EcFansMonitor.write_byte offset value w =
                 (Ok tt, World (Registers (<[Z.to_nat offset := b]> mem))
                           (stdin w) (trace w) (globals w))).
    { rewrite write_byte_eq, Hec, Hb.
      destruct (Z.ltb_spec offset 0); [lia |].
      destruct (Z.ltb_spec offset (Z.of_nat (length mem))); [reflexivity | lia]. }
    eexists. split; [exact Hw |].
    assert (Hr : forall w1 : world ascii (gmap Z Z),
              w1 = World (Registers (<[Z.to_nat offset := b]> mem))
                     (stdin w) (trace w) (globals w) ->
              EcFansMonitor.read_byte offset w1 = (Ok value, w1)).
    { intros w1 ->. rewrite <- HbZ. apply read_byte_register.
      apply (register_insert_eq _ mem); [reflexivity | lia]. }
    split; [apply Hr; reflexivity |].
    split; [unfold bind; rewrite Hw; apply Hr; reflexivity |].
    intros o Ho.
    apply (register_insert_ne w _ mem offset o b); [exact Hec | reflexivity | lia | exact Ho].
  - intros w Hec.
    destruct (write_ec_in_range offset value w mem Hec) as [b' [Hb' Hw]]; [lia | lia |].
    assert (b' = b) as -> by congruence.
    exists (World (Registers (<[Z.to_nat offset := b]> mem)) (stdin w) (trace w) (globals w)),
      (<[Z.to_nat offset := b]> mem).
    split; [exact Hw |].
    split.
    { rewrite read_ec_eq. cbn [ec].
      rewrite take_ge by (rewrite length_insert; lia). reflexivity. }
    split.
    { rewrite <- HbZ. apply get_byte_nonneg; [lia |].
      apply list_lookup_insert_eq. lia. }
    split; [rewrite length_insert; exact Hlen |].
    intros o Ho.
    apply (register_insert_ne w _ mem offset o b); [exact Hec | reflexivity | lia | exact Ho].
Qed.

Lemma write_then_read_witness :
  (exists w', 
     (EcFansMonitor.write_byte 0x07 200 ;; EcFansMonitor.read_byte 0x07)
       (World (Registers blank_registers) [] [] ∅) = (Ok 200, w')) /\
  (exists w' data,
     GmkFan.write_ec 0x24 36 (World (Registers blank_registers) [] [] tt) = (Ok true, w') /\
     GmkFan.read_ec w' = (Ok (Some data), w') /\ GmkFan.get_byte data 0x24 = Ok 36).
Proof.
  split.
  - destruct (write_then_read blank_registers 0x07 200) as [Hmon _];
      [reflexivity | lia | lia |].
    destruct (Hmon (World (Registers blank_registers) [] [] ∅) eq_refl)
      as [w' [_ [_ [Hseq _]]]].
    exists w'. exact Hseq.
  - destruct (write_then_read blank_registers 0x24 36) as [_ Hmenu];
      [reflexivity | lia | lia |].
    destruct (Hmenu (World (Registers blank_registers) [] [] tt) eq_refl)
      as [w' [data [Hw [Hr [Hg _]]]]].
    exists w', data. auto.
Defined.

(** ** C3: a device file that cannot be opened *)





(** ** C4: the PWM keys *)








(** ** C2: what the exit handler writes *)

Lemma bind_Ok {K G A B} (m : @M K G A) (k : A -> @M K G B) (w w' : world K G) (a : A) :
  m w = (Ok a, w') -> bind m k w = k a w'.
Proof. intros Hm. unfold bind. rewrite Hm. reflexivity. Qed.

Lemma PWM_VALUES_eq (w : world ascii (gmap Z Z)) (fan v : Z) :
  globals w !! fan = Some v -> EcFansMonitor.PWM_VALUES fan w = (Ok v, w).
Proof.
  intros Hv. unfold EcFansMonitor.PWM_VALUES, bind, get_globals. rewrite Hv. reflexivity.
Qed.

Lemma write_byte_in_range (offset value : Z) (w : world ascii (gmap Z Z)) (mem : list byte)
    (b : byte) :
  ec w = Registers mem -> 0 <= offset < Z.of_nat (length mem) -> byte_of_Z value = Some b ->
  EcFansMonitor.write_byte offset value w =
  (Ok tt, World (Registers (<[Z.to_nat offset := b]> mem)) (stdin w) (trace w) (globals w)).
Proof.
  intros Hec Hoff Hb. rewrite write_byte_eq, Hec, Hb.
  destruct (Z.ltb_spec offset 0); [lia |].
  destruct (Z.ltb_spec offset (Z.of_nat (length mem))); [reflexivity | lia].
Qed.

(** The handler of [KeyboardInterrupt] writes to each PWM register the value
    [PWM_VALUES] holds for its fan at that moment. *)
Lemma write_pwm_values_current (w : world ascii (gmap Z Z)) (mem : list byte) (v0 v1 v2 : Z) :
  ec w = Registers mem -> length mem = 256%nat ->
  globals w !! 0 = Some v0 -> globals w !! 1 = Some v1 -> globals w !! 2 = Some v2 ->
  0 <= v0 <= 255 -> 0 <= v1 <= 255 -> 0 <= v2 <= 255 ->
  exists w',
    EcFansMonitor.write_pwm_values EcFansMonitor.FAN_PWM_MAP w = (Ok tt, w') /\
    register w' 0x07 = byte_of_Z v0 /\
    register w' 0x08 = byte_of_Z v1 /\
    register w' 0x09 = byte_of_Z v2 /\
    globals w' = globals w.
Proof.
  intros Hec Hlen H0 H1 H2 R0 R1 R2.
  destruct (byte_of_Z_in_range v0 R0) as [b0 [Hb0 _]].
  destruct (byte_of_Z_in_range v1 R1) as [b1 [Hb1 _]].
  destruct (byte_of_Z_in_range v2 R2) as [b2 [Hb2 _]].
  exists (World (Registers (<[9%nat := b2]> (<[8%nat := b1]> (<[7%nat := b0]> mem))))
            (stdin w) (trace w) (globals w)).
  split.
  - unfold EcFansMonitor.FAN_PWM_MAP. cbn [EcFansMonitor.write_pwm_values].
    rewrite (bind_Ok _ _ _ _ _ (PWM_VALUES_eq w 0 v0 H0)).
    rewrite (bind_Ok _ _ _ _ _ (write_byte_in_range 7 v0 w mem b0 Hec ltac:(lia) Hb0)).
    set (w1 := World _ _ _ _).
    rewrite (bind_Ok _ _ _ _ _ (PWM_VALUES_eq w1 1 v1 H1)).
    rewrite (bind_Ok _ _ _ _ _
               (write_byte_in_range 8 v1 w1 _ b1 eq_refl
                  ltac:(rewrite length_insert; lia) Hb1)).
    set (w2 := World _ _ _ _).
    rewrite (bind_Ok _ _ _ _ _ (PWM_VALUES_eq w2 2 v2 H2)).
    rewrite (bind_Ok _ _ _ _ _
               (write_byte_in_range 9 v2 w2 _ b2 eq_refl
                  ltac:(rewrite !length_insert; lia) Hb2)).
    reflexivity.
  - unfold register. cbn [ec globals]. rewrite Hb0, Hb1, Hb2.
    split; [| split; [| split; [| reflexivity]]].
    + cbn. rewrite !list_lookup_insert_ne by lia. apply list_lookup_insert_eq. lia.
    + cbn. rewrite list_lookup_insert_ne by lia. apply list_lookup_insert_eq.
      rewrite length_insert. lia.
    + cbn. apply list_lookup_insert_eq. rewrite !length_insert. lia.
Qed.


(** ** C1: from a percentage to a bucket *)

Lemma print_eq {K G} (line : string) (w : world K G) :
  print line w = (Ok tt, World (ec w) (stdin w) (trace w ++ [Printed line]) (globals w)).
Proof. reflexivity. Qed.

(** The enable write followed by the speed write. *)
Lemma enable_then_speed (w : world string unit) (mem : list byte)
    (enable_reg enable speed_reg v : Z) :
  ec w = Registers mem -> length mem = 256%nat ->
  0 <= enable_reg <= 255 -> 0 <= speed_reg <= 255 -> enable_reg <> speed_reg ->
  0 <= enable <= 255 -> 0 <= v <= 255 ->
  exists w',
    (GmkFan.write_ec enable_reg enable ;; GmkFan.write_ec speed_reg v) w = (Ok true, w') /\
    stdin w' = stdin w /\ trace w' = trace w /\
    (exists mem', ec w' = Registers mem' /\ length mem' = 256%nat) /\
    register w' enable_reg = byte_of_Z enable /\
    register w' speed_reg = byte_of_Z v /\
    (forall o, o <> enable_reg -> o <> speed_reg -> register w' o = register w o).
Proof.
  intros Hec Hlen Hereg Hsreg Hne Henable Hv.
  destruct (write_ec_in_range enable_reg enable w mem Hec) as [be [Hbe Hrun1]]; [lia | lia |].
  set (w1 := World _ _ _ _) in Hrun1.
  destruct (write_ec_in_range speed_reg v w1 (<[Z.to_nat enable_reg := be]> mem) eq_refl)
    as [bv [Hbv Hrun2]]; [rewrite length_insert; lia | lia |].
  eexists. split; [rewrite (bind_Ok _ _ _ _ _ Hrun1); exact Hrun2 |].
  cbn [stdin trace ec]. split; [reflexivity |]. split; [reflexivity |].
  split; [eexists; split; [reflexivity | rewrite !length_insert; exact Hlen] |].
  unfold register. cbn [ec]. rewrite Hbe, Hbv, Hec.
  destruct (Z.ltb_spec enable_reg 0); [lia |]. destruct (Z.ltb_spec speed_reg 0); [lia |].
  split; [| split].
  - rewrite list_lookup_insert_ne by lia. apply list_lookup_insert_eq. lia.
  - apply list_lookup_insert_eq. rewrite length_insert. lia.
  - intros o Ho1 Ho2. destruct (Z.ltb_spec o 0); [reflexivity |].
    rewrite !list_lookup_insert_ne by lia. reflexivity.
Qed.

(** What [min] picks among the keys of [fan1_mapping]. *)
Lemma fan1_choice (p : Z) :
  exists b v,
    min_by (fun x => Z.abs (x - p)) (map fst GmkFan.fan1_mapping) = Ok b /\
    dict_item GmkFan.fan1_mapping b = Ok v /\
    closest_bucket p b /\
    (forall b', closest_bucket p b' -> b <= b') /\
    0 <= v <= 255 /\
    dict_get GmkFan.fan1_pct_map v = Some b.
Proof.
  unfold closest_bucket, buckets.
  assert (Hcases : p <= 30 \/ 30 < p <= 50 \/ 50 < p <= 70 \/ 70 < p <= 90 \/ 90 < p) by lia.
  destruct Hcases as [H | [H | [H | [H | H]]]];
    [exists 20, 34 | exists 40, 35 | exists 60, 36 | exists 80, 37 | exists 100, 38];
    (split;
     [ cbn [map fst GmkFan.fan1_mapping min_by min_by_from];
       repeat match goal with
              | |- context [Z.abs (?a - p) <? Z.abs (?b - p)] =>
                  lazymatch b with
                  | context [if _ then _ else _] => fail
                  | _ => destruct (Z.ltb_spec (Z.abs (a - p)) (Z.abs (b - p))); try lia
                  end
              end; reflexivity
     | split; [reflexivity |] ]);
    (split; [split; [cbn; tauto | intros b' Hb'; cbn in Hb'; intuition lia] |]);
    (split; [intros b' [Hin Hmin]; cbn in Hin;
             first [ specialize (Hmin 20 ltac:(cbn; tauto)); intuition lia
                   | specialize (Hmin 40 ltac:(cbn; tauto)); intuition lia
                   | specialize (Hmin 60 ltac:(cbn; tauto)); intuition lia
                   | specialize (Hmin 80 ltac:(cbn; tauto)); intuition lia
                   | specialize (Hmin 100 ltac:(cbn; tauto)); intuition lia ] |]);
    (split; [lia | reflexivity]).
Qed.

Lemma bind_lift_Ok {K G A B} (a : A) (k : A -> @M K G B) (w : world K G) :
  bind (lift (Ok a)) k w = k a w.
Proof. reflexivity. Qed.


Lemma fan2_byte (p : Z) :
  exists b v,
    (if p <=? 20 then 18 else if p <=? 40 then 19 else if p <=? 60 then 20
     else if p <=? 80 then 21 else 22) = v /\
    round_up_bucket p b /\ 18 <= v <= 22 /\
    dict_get GmkFan.fan2_pct_map v = Some b /\
    dict_get GmkFan.sysfan_pct_map (v + 32) = Some b.
Proof.
  unfold round_up_bucket, buckets.
  destruct (Z.leb_spec p 20); [exists 20, 18 |
  destruct (Z.leb_spec p 40); [exists 40, 19 |
  destruct (Z.leb_spec p 60); [exists 60, 20 |
  destruct (Z.leb_spec p 80); [exists 80, 21 | exists 100, 22]]]];
    (split; [reflexivity |]);
    (split; [split; [cbn; tauto | split; [lia | intros b' Hb'; cbn in Hb'; intuition lia]] |]);
    (split; [lia | split; reflexivity]).
Qed.





(** ** The status display of the menu program *)

Lemma get_byte_is_Ok (data : list byte) (offset : Z) :
  exists v, GmkFan.get_byte data offset = Ok v.
Proof.
  unfold GmkFan.get_byte, index.
  repeat match goal with
         | |- context [if ?c then _ else _] => destruct c
         | |- context [match ?o with Some _ => _ | None => _ end] => destruct o
         end; cbn; eauto.
Qed.

Lemma bind_print {K G B} (line : string) (k : unit -> @M K G B) (w : world K G) :
  bind (print line) k w =
  k tt (World (ec w) (stdin w) (trace w ++ [Printed line]) (globals w)).
Proof. reflexivity. Qed.

Lemma bind_os_system {K G B} (command : string) (k : unit -> @M K G B) (w : world K G) :
  bind (os_system command) k w =
  k tt (World (ec w) (stdin w) (trace w ++ [Ran command]) (globals w)).
Proof. reflexivity. Qed.

(** Runs a sequence of prints, leaving the trace as one list appended to the
    old one. *)
Ltac run_prints :=
  repeat (rewrite bind_print; cbv beta; cbn [ec stdin trace globals];
          rewrite <- ?app_assoc; cbn [app]);
  rewrite print_eq; cbn [ec stdin trace globals]; rewrite <- ?app_assoc; cbn [app].

Lemma monitor_all_fans_total (w : world string unit) :
  exists lines,
    GmkFan.monitor_all_fans w =
    (Ok tt, World (ec w) (stdin w) (trace w ++ lines) (globals w)).
Proof.
  unfold GmkFan.monitor_all_fans.
  pose proof (read_ec_eq w) as Hread.
  destruct (ec w) as [err | mem] eqn:Hec.
  - rewrite (bind_Ok _ _ _ _ _ Hread). cbv beta iota.
    rewrite print_eq. cbn [ec stdin trace globals].
    rewrite <- app_assoc. eexists. reflexivity.
  - rewrite (bind_Ok _ _ _ _ _ Hread). cbv beta iota.
    destruct (take 256 mem) as [| d0 data] eqn:Hdata.
    + rewrite print_eq, Hec. eexists. reflexivity.
    + cbv iota.
      destruct (get_byte_is_Ok (d0 :: data) 0x37) as [v37 H37].
      destruct (get_byte_is_Ok (d0 :: data) 0x35) as [v35 H35].
      destruct (get_byte_is_Ok (d0 :: data) 0x28) as [v28 H28].
      destruct (get_byte_is_Ok (d0 :: data) 0x23) as [v23 H23].
      destruct (get_byte_is_Ok (d0 :: data) 0x24) as [v24 H24].
      destruct (get_byte_is_Ok (d0 :: data) 0x21) as [v21 H21].
      destruct (get_byte_is_Ok (d0 :: data) 0x22) as [v22 H22].
      destruct (get_byte_is_Ok (d0 :: data) 0x25) as [v25 H25].
      destruct (get_byte_is_Ok (d0 :: data) 0x26) as [v26 H26].
      rewrite H37, bind_lift_Ok; cbv beta.
      rewrite H35, bind_lift_Ok; cbv beta.
      rewrite H28, bind_lift_Ok; cbv beta zeta.
      rewrite H23, bind_lift_Ok; cbv beta.
      rewrite H24, bind_lift_Ok; cbv beta.
      rewrite H21, bind_lift_Ok; cbv beta.
      rewrite H22, bind_lift_Ok; cbv beta.
      rewrite H25, bind_lift_Ok; cbv beta.
      rewrite H26, bind_lift_Ok; cbv beta zeta.
      run_prints. rewrite Hec.
      eexists. reflexivity.
Qed.

Lemma redraw_total (w : world string unit) :
  exists lines,
    redraw w = (Ok tt, World (ec w) (stdin w) (trace w ++ lines) (globals w)).
Proof.
  unfold redraw.
  destruct (monitor_all_fans_total
              (World (ec w) (stdin w) (trace w ++ [Ran "clear"]) (globals w)))
    as [lines Hlines].
  cbn [ec stdin trace globals] in Hlines.
  rewrite bind_os_system. cbv beta.
  rewrite (bind_Ok _ _ _ _ _ Hlines). cbv beta.
  unfold GmkFan.print_menu. run_prints.
  eexists. reflexivity.
Qed.

Lemma main_turn_after_redraw (fuel : nat) (w w1 : world string unit) :
  redraw w = (Ok tt, w1) ->
  GmkFan.main_turn fuel w =
  try_except (GmkFan.choose fuel)
    [(is_KeyboardInterrupt, fun _ => ret GmkFan.Break);
     (is_Exception, fun e =>
        print ("Error: " +:+ exn_msg e) ;; time_sleep 2000 ;; ret GmkFan.Continue)] w1.
Proof.
  unfold redraw, GmkFan.main_turn. intros Hredraw.
  unfold bind at 1 in Hredraw. unfold bind at 1.
  destruct (os_system "clear" w) as [[[] | e |] w0]; try discriminate.
  unfold bind at 1 in Hredraw. unfold bind at 1.
  destruct (GmkFan.monitor_all_fans w0) as [[[] | e |] w0']; try discriminate.
  unfold bind at 1. rewrite Hredraw. reflexivity.
Qed.

(** ** C7: input errors in the menu loop *)

Lemma input_line (prompt s : string) (rest : list (event string)) (w : world string unit) :
  stdin w = Input s :: rest ->
  GmkFan.input prompt w =
  (Ok s, World (ec w) rest (trace w ++ [Written prompt]) (globals w)).
Proof.
  intros Hin. unfold GmkFan.input, bind, emit. cbn [ec stdin trace globals].
  rewrite Hin. reflexivity.
Qed.









Lemma main_resumes (fuel : nat) (w w' : world string unit) :
  GmkFan.main_turn fuel w = (Ok GmkFan.Continue, w') ->
  GmkFan.main (S fuel) w = GmkFan.main fuel w'.
Proof.
  intros Hturn. cbn [GmkFan.main]. rewrite (bind_Ok _ _ _ _ _ Hturn). reflexivity.
Qed.





(** ** C8: the RPM shown by the two programs *)

Lemma lookup_raw (mem : list byte) (offset : Z) :
  0 <= offset < Z.of_nat (length mem) ->
  exists b, mem !! Z.to_nat offset = Some b /\ raw_byte mem offset = Z_of_byte b.
Proof.
  intros Hoff.
  destruct (lookup_lt_is_Some_2 mem (Z.to_nat offset)) as [b Hb]; [lia |].
  exists b. split; [exact Hb |]. unfold raw_byte.
  rewrite (nth_lookup_Some _ _ _ _ Hb). reflexivity.
Qed.

Lemma raw_word_range (mem : list byte) (offset : Z) : 0 <= raw_word mem offset <= 65535.
Proof.
  unfold raw_word, raw_byte.
  pose proof (Z_of_byte_range (nth (Z.to_nat offset) mem "000"%byte)).
  pose proof (Z_of_byte_range (nth (Z.to_nat (offset + 1)) mem "000"%byte)).
  lia.
Qed.

Lemma get_byte_raw (mem : list byte) (offset : Z) :
  0 <= offset < Z.of_nat (length mem) ->
  GmkFan.get_byte mem offset = Ok (raw_byte mem offset).
Proof.
  intros Hoff. destruct (lookup_raw mem offset Hoff) as [b [Hb ->]].
  apply get_byte_nonneg; [lia | exact Hb].
Qed.

Lemma read_word_raw (w : world ascii (gmap Z Z)) (mem : list byte) (offset : Z) :
  ec w = Registers mem -> 0 <= offset -> offset + 1 < Z.of_nat (length mem) ->
  EcFansMonitor.read_word offset w = (Ok (raw_word mem offset), w).
Proof.
  intros Hec Hlo Hhi. rewrite read_word_eq, Hec.
  destruct (Z.ltb_spec offset 0); [lia |].
  destruct (lookup_raw mem offset) as [lo [Hlob Hlov]]; [lia |].
  destruct (lookup_raw mem (offset + 1)) as [hi [Hhib Hhiv]]; [lia |].
  replace (Z.to_nat (offset + 1)) with (S (Z.to_nat offset)) in Hhib by lia.
  rewrite (take_2_drop _ _ _ _ Hlob Hhib). unfold raw_word. rewrite Hlov, Hhiv.
  reflexivity.
Qed.

Lemma read_words_cons (w : world ascii (gmap Z Z)) (off r : Z) (offsets rs : list Z) :
  EcFansMonitor.read_word off w = (Ok r, w) ->
  EcFansMonitor.read_words offsets w = (Ok rs, w) ->
  EcFansMonitor.read_words (off :: offsets) w = (Ok (r :: rs), w).
Proof.
  intros Hr Hrs. cbn [EcFansMonitor.read_words]. unfold bind. rewrite Hr, Hrs. reflexivity.
Qed.

(** The status line of the monitor on three words. *)
Lemma status_line_eq (r0 r1 r2 pwm : Z) :
  0 <= r0 <= 65535 ->
  EcFansMonitor.status_line [r0; r1; r2] pwm =
  Ok (EcFansMonitor.cr +:+ "SysFan: " +:+ fmt_d 5 (r0 / 22) +:+ " | Fan1: " +:+ fmt_d 5 r1
      +:+ " | Fan2: " +:+ fmt_d 5 r2 +:+ " | PWM: " +:+ fmt_d 3 pwm +:+ " ").
Proof.
  intros Hr0. unfold EcFansMonitor.status_line.
  change (index [r0; r1; r2] 0) with (Ok r0).
  change (index [r0; r1; r2] 1) with (Ok r1).
  change (index [r0; r1; r2] 2) with (Ok r2).
  cbn [rbind]. rewrite (int_truediv_22 r0 Hr0). reflexivity.
Qed.

(** C8. On a register file of 256 bytes: the menu variant shows for Fan 1
    and Fan 2 the raw bytes at 0x37 and 0x35 multiplied by 267, and for
    Sysfan the raw byte at 0x28 multiplied by 317; the monitor variant shows
    for SysFan the word at 0x28 divided by 22 (integer quotient), and for
    Fan1 and Fan2 the words at 0x34 and 0x36 unscaled. *)
Theorem rpm_display (mem : list byte) :
  length mem = 256%nat ->
  (forall w : world string unit, ec w = Registers mem ->
     exists s1 s2 s3 tail,
       GmkFan.monitor_all_fans w =
       (Ok tt,
        World (ec w) (stdin w)
          (trace w ++
           [Printed "=== Complete Fan Status ===";
            Printed ("Fan 1:   " +:+ fmt_d 4 (raw_byte mem 0x37 * 267) +:+ s1);
            Printed ("Fan 2:   " +:+ fmt_d 4 (raw_byte mem 0x35 * 267) +:+ s2);
            Printed ("Sysfan:  " +:+ fmt_d 4 (raw_byte mem 0x28 * 317) +:+ s3)] ++ tail)
          (globals w))) /\
  (forall (w : world ascii (gmap Z Z)) (fan pwm : Z),
     ec w = Registers mem -> globals w !! fan = Some pwm -> stdin w = [] ->
     EcFansMonitor.read_words EcFansMonitor.RPM_OFFSETS w =
       (Ok [raw_word mem 0x28; raw_word mem 0x34; raw_word mem 0x36], w) /\
     EcFansMonitor.poll fan w =
       (Ok fan,
        World (ec w) (stdin w)
          (trace w ++
           [Written (EcFansMonitor.cr +:+ "SysFan: " +:+ fmt_d 5 (raw_word mem 0x28 / 22)
                     +:+ " | Fan1: " +:+ fmt_d 5 (raw_word mem 0x34)
                     +:+ " | Fan2: " +:+ fmt_d 5 (raw_word mem 0x36)
                     +:+ " | PWM: " +:+ fmt_d 3 pwm +:+ " ");
            Slept 500])
          (globals w))).
Proof.
  intros Hlen. split.
  - intros w Hec.
    unfold GmkFan.monitor_all_fans.
    pose proof (read_ec_eq w) as Hread. rewrite Hec in Hread.
    rewrite take_ge in Hread by lia.
    rewrite (bind_Ok _ _ _ _ _ Hread). cbv beta iota.
    destruct mem as [| d0 data]; [discriminate |]. cbv iota.
    rewrite (get_byte_raw (d0 :: data) 0x37), bind_lift_Ok by lia; cbv beta.
    rewrite (get_byte_raw (d0 :: data) 0x35), bind_lift_Ok by lia; cbv beta.
    rewrite (get_byte_raw (d0 :: data) 0x28), bind_lift_Ok by lia; cbv beta zeta.
    rewrite (get_byte_raw (d0 :: data) 0x23), bind_lift_Ok by lia; cbv beta.
    rewrite (get_byte_raw (d0 :: data) 0x24), bind_lift_Ok by lia; cbv beta.
    rewrite (get_byte_raw (d0 :: data) 0x21), bind_lift_Ok by lia; cbv beta.
    rewrite (get_byte_raw (d0 :: data) 0x22), bind_lift_Ok by lia; cbv beta.
    rewrite (get_byte_raw (d0 :: data) 0x25), bind_lift_Ok by lia; cbv beta.
    rewrite (get_byte_raw (d0 :: data) 0x26), bind_lift_Ok by lia; cbv beta zeta.
    run_prints.
    do 4 eexists. reflexivity.
  - intros w fan pwm Hec Hpwm Hstdin.
    assert (Hwords : EcFansMonitor.read_words EcFansMonitor.RPM_OFFSETS w =
                     (Ok [raw_word mem 0x28; raw_word mem 0x34; raw_word mem 0x36], w)).
    { unfold EcFansMonitor.RPM_OFFSETS.
      repeat (apply read_words_cons; [apply read_word_raw; [exact Hec | lia | lia] |]).
      reflexivity. }
    split; [exact Hwords |].
    unfold EcFansMonitor.poll.
    rewrite (bind_Ok _ _ _ _ _ Hwords). cbv beta.
    rewrite (bind_Ok _ _ _ _ _ (PWM_VALUES_eq w fan pwm Hpwm)). cbv beta.
    rewrite (status_line_eq _ _ _ pwm (raw_word_range mem 0x28)), bind_lift_Ok. cbv beta.
    unfold bind, emit, time_sleep, EcFansMonitor.stdin_ready. cbn [ec stdin trace globals].
    rewrite Hstdin. cbn [ec stdin trace globals]. rewrite <- app_assoc.
    reflexivity.
Qed.

Lemma rpm_display_witness :
  (exists s1 tail,
     trace (snd (GmkFan.monitor_all_fans (World (Registers running_registers) [] [] tt)))
     = [Printed "=== Complete Fan Status ==="; Printed ("Fan 1:   4005" +:+ s1)] ++ tail) /\
  fst (EcFansMonitor.poll 0 (World (Registers running_registers) [] [] {[ 0 := 128 ]}))
    = Ok 0.
Proof.
  destruct (rpm_display running_registers eq_refl) as [Hmenu Hmon].
  split.
  - destruct (Hmenu (World (Registers running_registers) [] [] tt) eq_refl)
      as [s1 [s2 [s3 [tail Hrun]]]].
    rewrite Hrun. exists s1. eexists. reflexivity.
  - destruct (Hmon (World (Registers running_registers) [] [] {[ 0 := 128 ]}) 0 128)
      as [_ Hpoll]; [reflexivity | reflexivity | reflexivity |].
    rewrite Hpoll. reflexivity.
Defined.

(** * Further properties of the register accessors *)

(** X1. [write_ec] never raises and never prints: it returns a flag, and
    when the flag is [False] (device missing, negative offset, any failed
    write) the world is exactly as before. *)
Theorem write_ec_never_raises (offset value : Z) (w : world string unit) :
  exists ok w',
    GmkFan.write_ec offset value w = (Ok ok, w') /\
    stdin w' = stdin w /\ trace w' = trace w /\
    (ok = false -> w' = w) /\
    (offset < 0 -> ok = false) /\
    (forall err, ec w = Unavailable err -> ok = false).
Proof.
  rewrite write_ec_eq.
  destruct (ec w) as [err | mem] eqn:Hec.
  - exists false, w. repeat split; auto.
  - destruct (byte_of_Z (Z.land value 0xFF)) as [b |].
    + destruct (Z.leb_spec 0 offset) as [Hpos | Hneg]; cbn [andb].
      * destruct (Z.ltb_spec offset (Z.of_nat (length mem))).
        -- eexists true, _. split; [reflexivity |]. cbn [stdin trace].
           repeat split; try discriminate; try lia.
        -- exists false, w. repeat split; auto; discriminate.
      * exists false, w. repeat split; auto; discriminate.
    + exists false, w. repeat split; auto; discriminate.
Qed.

Lemma write_ec_never_raises_witness :
  GmkFan.write_ec (-1) 36 (World (Registers blank_registers) [] [] tt)
  = (Ok false, World (Registers blank_registers) [] [] tt).
Proof.
  destruct (write_ec_never_raises (-1) 36 (World (Registers blank_registers) [] [] tt))
    as [ok [w' [Hrun [_ [_ [Hsame [Hneg _]]]]]]].
  rewrite Hrun. rewrite (Hneg ltac:(lia)) in *. rewrite (Hsame eq_refl). reflexivity.
Defined.



Lemma unpack_B_Ok (bs : list byte) (v : Z) :
  unpack_B bs = Ok v -> exists b, bs = [b] /\ v = Z_of_byte b.
Proof.
  unfold unpack_B. destruct bs as [| b [| b' bs']]; try discriminate.
  intros H. injection H as <-. eauto.
Qed.

Lemma take_1_drop_inv (mem : list byte) (n : nat) (b : byte) :
  take 1 (drop n mem) = [b] -> mem !! n = Some b.
Proof.
  intros H. replace n with (n + 0)%nat by lia. rewrite <- lookup_drop.
  destruct (drop n mem) as [| x l]; [discriminate |].
  cbn in H. injection H as ->. reflexivity.
Qed.

Lemma read_byte_Ok (offset v : Z) (w w' : world ascii (gmap Z Z)) :
  EcFansMonitor.read_byte offset w = (Ok v, w') ->
  w' = w /\ 0 <= offset /\
  exists mem b, ec w = Registers mem /\ mem !! Z.to_nat offset = Some b /\ v = Z_of_byte b.
Proof.
  rewrite read_byte_eq.
  destruct (ec w) as [err | mem]; [discriminate |].
  destruct (Z.ltb_spec offset 0) as [Hneg | Hpos]; [discriminate |].
  intros H. injection H as Hv <-.
  destruct (unpack_B_Ok _ _ Hv) as [b [Hb ->]].
  split; [reflexivity |]. split; [exact Hpos |].
  exists mem, b. split; [reflexivity |]. split; [apply take_1_drop_inv; exact Hb | reflexivity].
Qed.

(** X3. [read_word] is the little-endian combination of two [read_byte]s:
    when the bytes at [offset] and [offset + 1] read as [lo] and [hi], the
    word at [offset] reads as [lo + 256 * hi]. *)
Theorem read_word_of_bytes (offset lo hi : Z) (w : world ascii (gmap Z Z)) :
  EcFansMonitor.read_byte offset w = (Ok lo, w) ->
  EcFansMonitor.read_byte (offset + 1) w = (Ok hi, w) ->
  EcFansMonitor.read_word offset w = (Ok (lo + 256 * hi), w).
Proof.
  intros Hlo Hhi.
  destruct (read_byte_Ok _ _ _ _ Hlo) as [_ [Hoff [mem [blo [Hec [Hblo ->]]]]]].
  destruct (read_byte_Ok _ _ _ _ Hhi) as [_ [_ [mem' [bhi [Hec' [Hbhi ->]]]]]].
  assert (mem' = mem) as -> by congruence.
  replace (Z.to_nat (offset + 1)) with (S (Z.to_nat offset)) in Hbhi by lia.
  rewrite read_word_eq, Hec.
  destruct (Z.ltb_spec offset 0); [lia |].
  rewrite (take_2_drop _ _ _ _ Hblo Hbhi). reflexivity.
Qed.

Lemma read_word_of_bytes_witness :
  EcFansMonitor.read_word 0x28 (World (Registers running_registers) [] [] ∅)
  = (Ok (38 + 256 * 6), World (Registers running_registers) [] [] ∅).
Proof.
  apply read_word_of_bytes; reflexivity.
Defined.

(** X4. Reading never changes the world, and what is read is in range:
    a byte in [0,255], a word in [0,65535]. *)
Theorem reads_are_pure_and_bounded (offset : Z) (w w' : world ascii (gmap Z Z))
    (r : result Z) :
  (EcFansMonitor.read_byte offset w = (r, w') ->
   w' = w /\ forall v, r = Ok v -> 0 <= v <= 255) /\
  (EcFansMonitor.read_word offset w = (r, w') ->
   w' = w /\ forall v, r = Ok v -> 0 <= v <= 65535).
Proof.
  split.
  - rewrite read_byte_eq.
    destruct (ec w) as [err | mem]; [intros H; injection H as <- <-; split; [easy | discriminate] |].
    destruct (offset <? 0); [intros H; injection H as <- <-; split; [easy | discriminate] |].
    intros H. injection H as <- <-. split; [reflexivity |].
    intros v Hv. destruct (unpack_B_Ok _ _ Hv) as [b [_ ->]]. apply Z_of_byte_range.
  - rewrite read_word_eq.
    destruct (ec w) as [err | mem]; [intros H; injection H as <- <-; split; [easy | discriminate] |].
    destruct (offset <? 0); [intros H; injection H as <- <-; split; [easy | discriminate] |].
    intros H. injection H as <- <-. split; [reflexivity |].
    intros v. unfold unpack_H_le.
    destruct (take 2 (drop (Z.to_nat offset) mem)) as [| lo [| hi [| x l]]]; try discriminate.
    intros Hv. injection Hv as <-.
    pose proof (Z_of_byte_range lo). pose proof (Z_of_byte_range hi). lia.
Qed.

Lemma reads_are_pure_and_bounded_witness :
  exists v, EcFansMonitor.read_word 0x28 (World (Registers running_registers) [] [] ∅)
            = (Ok v, World (Registers running_registers) [] [] ∅) /\ 0 <= v <= 65535.
Proof.
  exists (38 + 256 * 6). split; [reflexivity |].
  destruct (reads_are_pure_and_bounded 0x28 (World (Registers running_registers) [] [] ∅)
              (World (Registers running_registers) [] [] ∅) (Ok (38 + 256 * 6)))
    as [_ Hword].
  destruct (Hword eq_refl) as [_ Hrange]. apply Hrange. reflexivity.
Defined.



Lemma slice_two (data : list byte) (offset : Z) (lo hi : byte) :
  0 <= offset -> data !! Z.to_nat offset = Some lo ->
  data !! S (Z.to_nat offset) = Some hi ->
  slice data offset (offset + 2) = [lo; hi].
Proof.
  intros Hoff Hlo Hhi. unfold slice, clamp_index.
  pose proof (lookup_lt_Some _ _ _ Hhi) as Hlen.
  destruct (Z.ltb_spec offset 0); [lia |].
  destruct (Z.ltb_spec (offset + 2) 0); [lia |].
  rewrite !Z.min_l by lia.
  replace (Z.to_nat (offset + 2 - offset)) with 2%nat by lia.
  apply take_2_drop; assumption.
Qed.

Lemma short_slice_gives_0 (bs : list byte) :
  (length bs <= 1)%nat -> try_except_all (unpack_H_le bs) 0 = Ok 0.
Proof.
  destruct bs as [| lo [| hi l]]; cbn; intros H; try lia; reflexivity.
Qed.

(** X6. [get_rpm_little_endian] combines the two bytes [get_byte] returns at
    [offset] and [offset + 1], low byte first; at the last byte of the data
    the slice is one byte short and the result is the sentinel 0; and the
    offsets -1 and -2, which [get_byte] serves from the end of the data,
    give 0 on every input, the slice [data[offset:offset+2]] never holding
    two bytes there. *)
Theorem get_rpm_of_bytes (data : list byte) (offset : Z) :
  (0 <= offset -> offset + 1 < Z.of_nat (length data) ->
   exists lo hi,
     GmkFan.get_byte data offset = Ok lo /\ GmkFan.get_byte data (offset + 1) = Ok hi /\
     GmkFan.get_rpm_little_endian data offset = Ok (lo + 256 * hi)) /\
  (0 <= offset -> Z.of_nat (length data) <= offset + 1 ->
   GmkFan.get_rpm_little_endian data offset = Ok 0) /\
  GmkFan.get_rpm_little_endian data (-1) = Ok 0 /\
  GmkFan.get_rpm_little_endian data (-2) = Ok 0.
Proof.
  split; [| split; [| split]].
  - intros Hoff Hlen.
    destruct (lookup_lt_is_Some_2 data (Z.to_nat offset)) as [lo Hlo]; [lia |].
    destruct (lookup_lt_is_Some_2 data (S (Z.to_nat offset))) as [hi Hhi]; [lia |].
    exists (Z_of_byte lo), (Z_of_byte hi).
    split; [apply get_byte_nonneg; [lia | exact Hlo] |].
    split.
    + apply get_byte_nonneg; [lia |].
      replace (Z.to_nat (offset + 1)) with (S (Z.to_nat offset)) by lia. exact Hhi.
    + unfold GmkFan.get_rpm_little_endian.
      rewrite (slice_two data offset lo hi Hoff Hlo Hhi). reflexivity.
  - intros Hoff Hlen. unfold GmkFan.get_rpm_little_endian.
    apply short_slice_gives_0. unfold slice, clamp_index.
    destruct (Z.ltb_spec offset 0); [lia |].
    destruct (Z.ltb_spec (offset + 2) 0); [lia |].
    rewrite length_take, length_drop. lia.
  - unfold GmkFan.get_rpm_little_endian.
    apply short_slice_gives_0. unfold slice, clamp_index.
    repeat match goal with
           | |- context [?a <? ?b] => destruct (Z.ltb_spec a b); try lia
           end;
      rewrite length_take, length_drop; lia.
  - unfold GmkFan.get_rpm_little_endian.
    apply short_slice_gives_0. unfold slice, clamp_index.
    repeat match goal with
           | |- context [?a <? ?b] => destruct (Z.ltb_spec a b); try lia
           end;
      rewrite length_take, length_drop; lia.
Qed.

Lemma get_rpm_of_bytes_witness :
  GmkFan.get_rpm_little_endian ["a"%byte; "b"%byte; "c"%byte] 1 = Ok (98 + 256 * 99) /\
  GmkFan.get_rpm_little_endian ["a"%byte; "b"%byte; "c"%byte] 2 = Ok 0 /\
  GmkFan.get_byte ["a"%byte; "b"%byte; "c"%byte] (-1) = Ok 99 /\
  GmkFan.get_rpm_little_endian ["a"%byte; "b"%byte; "c"%byte] (-1) = Ok 0.
Proof.
  destruct (get_rpm_of_bytes ["a"%byte; "b"%byte; "c"%byte] 1) as [Hin _].
  destruct (get_rpm_of_bytes ["a"%byte; "b"%byte; "c"%byte] 2) as [_ [Hlast [Hm1 _]]].
  destruct Hin as [lo [hi [Hlo [Hhi Hword]]]]; [lia | cbn; lia |].
  vm_compute in Hlo, Hhi. injection Hlo as <-. injection Hhi as <-.
  split; [exact Hword |]. split; [apply Hlast; cbn; lia |].
  split; [reflexivity | exact Hm1].
Defined.

(** * Further properties of the menu program *)

Lemma raw_byte_register {K G} (w : world K G) (mem : list byte) (offset : Z) :
  ec w = Registers mem -> 0 <= offset ->
  raw_byte mem offset = Z_of_byte (default "000"%byte (register w offset)).
Proof.
  intros Hec Hoff. unfold raw_byte, register. rewrite Hec.
  destruct (Z.ltb_spec offset 0); [lia |]. rewrite nth_lookup. reflexivity.
Qed.

Lemma raw_byte_stored {K G} (w : world K G) (mem : list byte) (offset v : Z) :
  ec w = Registers mem -> 0 <= offset -> 0 <= v <= 255 ->
  register w offset = byte_of_Z v -> raw_byte mem offset = v.
Proof.
  intros Hec Hoff Hv Hreg. rewrite (raw_byte_register w mem offset Hec Hoff), Hreg.
  destruct (byte_of_Z_in_range v Hv) as [b [-> Hb]]. exact Hb.
Qed.

Lemma raw_byte_kept {K G} (w w' : world K G) (mem mem' : list byte) (offset : Z) :
  ec w = Registers mem -> ec w' = Registers mem' -> 0 <= offset ->
  register w' offset = register w offset -> raw_byte mem' offset = raw_byte mem offset.
Proof.
  intros Hec Hec' Hoff Hreg.
  rewrite (raw_byte_register w mem offset Hec Hoff),
    (raw_byte_register w' mem' offset Hec' Hoff), Hreg. reflexivity.
Qed.

(** The three rows of the status table, from the registers. *)
Lemma status_rows (w : world string unit) (mem : list byte) :
  ec w = Registers mem -> length mem = 256%nat ->
  exists tail,
    GmkFan.monitor_all_fans w =
    (Ok tt,
     World (ec w) (stdin w)
       (trace w ++
        [Printed "=== Complete Fan Status ===";
         Printed ("Fan 1:   " +:+ fmt_d 4 (raw_byte mem 0x37 * 267) +:+ " RPM | PWM: "
                  +:+ fmt_d 3 (GmkFan.get_or_0 GmkFan.fan1_pct_map (raw_byte mem 0x24))
                  +:+ "% (0x24=" +:+ str (raw_byte mem 0x24)
                  +:+ ") [Enable: 0x23=" +:+ str (raw_byte mem 0x23) +:+ "]");
         Printed ("Fan 2:   " +:+ fmt_d 4 (raw_byte mem 0x35 * 267) +:+ " RPM | PWM: "
                  +:+ fmt_d 3 (GmkFan.get_or_0 GmkFan.fan2_pct_map (raw_byte mem 0x22))
                  +:+ "% (0x22=" +:+ str (raw_byte mem 0x22)
                  +:+ ") [Enable: 0x21=" +:+ str (raw_byte mem 0x21) +:+ "]");
         Printed ("Sysfan:  " +:+ fmt_d 4 (raw_byte mem 0x28 * 317) +:+ " RPM | PWM: "
                  +:+ fmt_d 3 (GmkFan.get_or_0 GmkFan.sysfan_pct_map (raw_byte mem 0x26))
                  +:+ "% (0x26=" +:+ str (raw_byte mem 0x26)
                  +:+ ") [Enable: 0x25=" +:+ str (raw_byte mem 0x25) +:+ "]")] ++ tail)
       (globals w)).
Proof.
  intros Hec Hlen.
  unfold GmkFan.monitor_all_fans.
  pose proof (read_ec_eq w) as Hread. rewrite Hec in Hread.
  rewrite take_ge in Hread by lia.
  rewrite (bind_Ok _ _ _ _ _ Hread). cbv beta iota.
  destruct mem as [| d0 data]; [discriminate |]. cbv iota.
  rewrite (get_byte_raw (d0 :: data) 0x37), bind_lift_Ok by lia; cbv beta.
  rewrite (get_byte_raw (d0 :: data) 0x35), bind_lift_Ok by lia; cbv beta.
  rewrite (get_byte_raw (d0 :: data) 0x28), bind_lift_Ok by lia; cbv beta zeta.
  rewrite (get_byte_raw (d0 :: data) 0x23), bind_lift_Ok by lia; cbv beta.
  rewrite (get_byte_raw (d0 :: data) 0x24), bind_lift_Ok by lia; cbv beta.
  rewrite (get_byte_raw (d0 :: data) 0x21), bind_lift_Ok by lia; cbv beta.
  rewrite (get_byte_raw (d0 :: data) 0x22), bind_lift_Ok by lia; cbv beta.
  rewrite (get_byte_raw (d0 :: data) 0x25), bind_lift_Ok by lia; cbv beta.
  rewrite (get_byte_raw (d0 :: data) 0x26), bind_lift_Ok by lia; cbv beta zeta.
  run_prints.
  eexists. reflexivity.
Qed.

(** The two writes and the closing print of a percentage setter. *)
Lemma setter_tail (w : world string unit) (mem : list byte)
    (enable_reg enable speed_reg v : Z) (msg : string) :
  ec w = Registers mem -> length mem = 256%nat ->
  0 <= enable_reg <= 255 -> 0 <= speed_reg <= 255 -> enable_reg <> speed_reg ->
  0 <= enable <= 255 -> 0 <= v <= 255 ->
  exists w' mem',
    (GmkFan.write_ec enable_reg enable ;; GmkFan.write_ec speed_reg v ;; print msg) w
      = (Ok tt, w') /\
    ec w' = Registers mem' /\ length mem' = 256%nat /\
    stdin w' = stdin w /\ trace w' = trace w ++ [Printed msg] /\
    raw_byte mem' enable_reg = enable /\ raw_byte mem' speed_reg = v /\
    (forall o, 0 <= o -> o <> enable_reg -> o <> speed_reg ->
               raw_byte mem' o = raw_byte mem o).
Proof.
  intros Hec Hlen Her Hsr Hne He Hv.
  destruct (enable_then_speed w mem enable_reg enable speed_reg v Hec Hlen Her Hsr Hne He Hv)
    as [w2 [Hrun [Hin [Htr [[mem2 [Hec2 Hlen2]] [Hen [Hsp Hother]]]]]]].
  unfold bind at 1 in Hrun.
  destruct (GmkFan.write_ec enable_reg enable w) as [[ok | e |] w1] eqn:Hw1; try discriminate.
  unfold bind at 1. rewrite Hw1. unfold bind at 1. rewrite Hrun.
  rewrite print_eq.
  eexists _, mem2. split; [reflexivity |]. cbn [ec stdin trace].
  split; [exact Hec2 |]. split; [exact Hlen2 |]. split; [exact Hin |].
  split; [rewrite Htr; reflexivity |].
  split; [apply (raw_byte_stored w2); auto; lia |].
  split; [apply (raw_byte_stored w2); auto; lia |].
  intros o Ho Ho1 Ho2. apply (raw_byte_kept w w2); auto.
Qed.

(** X7. What a setter stores is what the status table then shows. After
    [set_fan1_percentage p] on a 256-byte register file the Fan 1 row shows
    the nearest bucket as the PWM percentage, its register byte and the
    enable byte 33; after [set_fan2_percentage p] the Fan 2 row shows the
    bucket [p] was rounded up to, its byte and the enable byte 17; the RPM
    column is as before. *)
Theorem status_shows_what_was_set (p : Z) (w : world string unit) (mem : list byte) :
  ec w = Registers mem -> length mem = 256%nat ->
  (exists b v w1 tail,
     closest_bucket p b /\ dict_get GmkFan.fan1_mapping b = Some v /\
     GmkFan.set_fan1_percentage p w = (Ok tt, w1) /\
     trace (snd (GmkFan.monitor_all_fans w1)) =
       trace w1 ++
       [Printed "=== Complete Fan Status ===";
        Printed ("Fan 1:   " +:+ fmt_d 4 (raw_byte mem 0x37 * 267) +:+ " RPM | PWM: "
                 +:+ fmt_d 3 b +:+ "% (0x24=" +:+ str v
                 +:+ ") [Enable: 0x23=" +:+ str 33 +:+ "]")] ++ tail) /\
  (exists b v w1 row1 tail,
     round_up_bucket p b /\ dict_get GmkFan.fan2_pct_map v = Some b /\
     GmkFan.set_fan2_percentage p w = (Ok tt, w1) /\
     trace (snd (GmkFan.monitor_all_fans w1)) =
       trace w1 ++
       [Printed "=== Complete Fan Status ==="; Printed row1;
        Printed ("Fan 2:   " +:+ fmt_d 4 (raw_byte mem 0x35 * 267) +:+ " RPM | PWM: "
                 +:+ fmt_d 3 b +:+ "% (0x22=" +:+ str v
                 +:+ ") [Enable: 0x21=" +:+ str 17 +:+ "]")] ++ tail).
Proof.
  intros Hec Hlen. split.
  - destruct (fan1_choice p) as [b [v [Hmin [Hitem [Hclosest [_ [Hv Hmap]]]]]]].
    unfold GmkFan.set_fan1_percentage.
    rewrite (bind_Ok _ _ _ _ _ (print_eq _ w)). cbv beta. set (w0 := World _ _ _ _).
    rewrite Hmin, bind_lift_Ok. cbv beta. rewrite Hitem, bind_lift_Ok. cbv beta.
    destruct (setter_tail w0 mem 0x23 33 0x24 v
                ("Set Fan 1 to " +:+ str b +:+ "% (value: " +:+ str v +:+ ")") Hec Hlen)
      as [w1 [mem1 [Hrun [Hec1 [Hlen1 [_ [_ [Hen [Hsp Hother]]]]]]]]]; try lia.
    destruct (status_rows w1 mem1 Hec1 Hlen1) as [tail Hrows].
    exists b, v, w1. eexists.
    split; [exact Hclosest |].
    split; [unfold dict_item in Hitem; destruct (dict_get GmkFan.fan1_mapping b);
            congruence |].
    split; [exact Hrun |].
    rewrite Hrows. cbn [snd trace]. rewrite Hen, Hsp, (Hother 0x37) by lia.
    unfold GmkFan.get_or_0. rewrite Hmap. cbn [default].
    change ([?a; ?b; ?c; ?d] ++ tail) with ([a; b] ++ [c; d] ++ tail).
    reflexivity.
  - destruct (fan2_byte p) as [b [v [Hv [Hup [Hrange [Hmap _]]]]]].
    unfold GmkFan.set_fan2_percentage.
    rewrite (bind_Ok _ _ _ _ _ (print_eq _ w)). cbv beta zeta. set (w0 := World _ _ _ _).
    rewrite Hv.
    destruct (setter_tail w0 mem 0x21 17 0x22 v
                ("Set Fan 2 to " +:+ str p +:+ "% (0x22=" +:+ str v +:+ ", 0x21=17)") Hec Hlen)
      as [w1 [mem1 [Hrun [Hec1 [Hlen1 [_ [_ [Hen [Hsp Hother]]]]]]]]]; try lia.
    destruct (status_rows w1 mem1 Hec1 Hlen1) as [tail Hrows].
    exists b, v, w1. do 2 eexists.
    split; [exact Hup |]. split; [exact Hmap |]. split; [exact Hrun |].
    rewrite Hrows. cbn [snd trace]. rewrite Hen, Hsp, (Hother 0x35) by lia.
    unfold GmkFan.get_or_0 at 2. rewrite Hmap. cbn [default].
    change ([?a; ?b; ?c; ?d] ++ tail) with ([a; b; c] ++ [d] ++ tail).
    reflexivity.
Qed.

Lemma status_shows_what_was_set_witness :
  exists w1 tail,
    GmkFan.set_fan1_percentage 45 (World (Registers running_registers) [] [] tt) = (Ok tt, w1) /\
    trace (snd (GmkFan.monitor_all_fans w1)) =
      trace w1 ++
      [Printed "=== Complete Fan Status ===";
       Printed "Fan 1:   4005 RPM | PWM:  40% (0x24=35) [Enable: 0x23=33]"] ++ tail.
Proof.
  destruct (status_shows_what_was_set 45 (World (Registers running_registers) [] [] tt)
              running_registers eq_refl eq_refl)
    as [[b [v [w1 [tail [[Hin Hmin] [Hv [Hrun Hrows]]]]]]] _].
  assert (b = 40) as ->.
  { pose proof (Hmin 40 ltac:(cbn; tauto)). cbn in Hin. intuition lia. }
  vm_compute in Hv. injection Hv as <-.
  exists w1, tail. split; [exact Hrun |]. rewrite Hrows. reflexivity.
Defined.

Lemma write_ec_unavailable (offset value : Z) (w : world string unit) (err : string) :
  ec w = Unavailable err -> GmkFan.write_ec offset value w = (Ok false, w).
Proof. intros Hec. rewrite write_ec_eq, Hec. reflexivity. Qed.

Lemma bind_write_ec_unavailable {B} (offset value : Z) (k : bool -> GmkFan.Menu B)
    (w : world string unit) (err : string) :
  ec w = Unavailable err -> bind (GmkFan.write_ec offset value) k w = k false w.
Proof.
  intros Hec. apply bind_Ok. apply (write_ec_unavailable _ _ _ err Hec).
Qed.

(** X8. The setters do not look at what [write_ec] returns. When the device
    file cannot be opened, [set_fan1_percentage], [set_fan2_percentage],
    [set_sysfan_percentage] and [set_auto_mode] change nothing, raise
    nothing, print no diagnostic, and still end with their line of
    success. *)
Theorem setters_ignore_write_failure (p : Z) (w : world string unit) (err : string) :
  ec w = Unavailable err ->
  (exists b v,
     closest_bucket p b /\ dict_get GmkFan.fan1_mapping b = Some v /\
     GmkFan.set_fan1_percentage p w =
     (Ok tt,
      World (ec w) (stdin w)
        (trace w ++ [Printed "Setting Fan 1...";
                     Printed ("Set Fan 1 to " +:+ str b +:+ "% (value: " +:+ str v +:+ ")")])
        (globals w))) /\
  (exists v,
     GmkFan.set_fan2_percentage p w =
     (Ok tt,
      World (ec w) (stdin w)
        (trace w ++ [Printed "Setting Fan 2...";
                     Printed ("Set Fan 2 to " +:+ str p +:+ "% (0x22=" +:+ str v
                              +:+ ", 0x21=17)")])
        (globals w))) /\
  (exists v,
     GmkFan.set_sysfan_percentage p w =
     (Ok tt,
      World (ec w) (stdin w)
        (trace w ++ [Printed "Setting Sysfan...";
                     Printed ("Set Sysfan to " +:+ str p +:+ "% (0x26=" +:+ str v
                              +:+ ", 0x25=49)")])
        (globals w))) /\
  GmkFan.set_auto_mode w =
  (Ok tt,
   World (ec w) (stdin w)
     (trace w ++ [Printed "Setting all fans to auto mode...";
                  Printed "All fans set to auto mode"])
     (globals w)).
Proof.
  intros Hec. split; [| split; [| split]].
  - destruct (fan1_choice p) as [b [v [Hmin [Hitem [Hclosest _]]]]].
    exists b, v. split; [exact Hclosest |].
    split; [unfold dict_item in Hitem; destruct (dict_get GmkFan.fan1_mapping b);
            congruence |].
    unfold GmkFan.set_fan1_percentage.
    rewrite bind_print. cbv beta.
    rewrite Hmin, bind_lift_Ok. cbv beta. rewrite Hitem, bind_lift_Ok. cbv beta.
    rewrite !(bind_write_ec_unavailable _ _ _ _ err) by exact Hec.
    rewrite print_eq. cbn [ec stdin trace globals]. rewrite <- app_assoc. reflexivity.
  - eexists. unfold GmkFan.set_fan2_percentage.
    rewrite bind_print. cbv beta zeta.
    rewrite !(bind_write_ec_unavailable _ _ _ _ err) by exact Hec.
    rewrite print_eq. cbn [ec stdin trace globals]. rewrite <- app_assoc. reflexivity.
  - eexists. unfold GmkFan.set_sysfan_percentage.
    rewrite bind_print. cbv beta zeta.
    rewrite !(bind_write_ec_unavailable _ _ _ _ err) by exact Hec.
    rewrite print_eq. cbn [ec stdin trace globals]. rewrite <- app_assoc. reflexivity.
  - unfold GmkFan.set_auto_mode.
    rewrite bind_print. cbv beta.
    rewrite !(bind_write_ec_unavailable _ _ _ _ err) by exact Hec.
    rewrite print_eq. cbn [ec stdin trace globals]. rewrite <- app_assoc. reflexivity.
Qed.

Lemma setters_ignore_write_failure_witness :
  GmkFan.set_auto_mode (World (Unavailable no_device) [] [] tt) =
  (Ok tt,
   World (Unavailable no_device) []
     [Printed "Setting all fans to auto mode..."; Printed "All fans set to auto mode"] tt).
Proof.
  destruct (setters_ignore_write_failure 45 (World (Unavailable no_device) [] [] tt) no_device
              eq_refl) as [_ [_ [_ Hauto]]].
  exact Hauto.
Defined.

Lemma get_byte_beyond (data : list byte) (offset : Z) :
  Z.of_nat (length data) <= offset -> GmkFan.get_byte data offset = Ok 0.
Proof.
  intros Hoff. unfold GmkFan.get_byte.
  destruct (index_unavailable data offset) as [e He]; [lia |].
  rewrite He. reflexivity.
Qed.

(** X9. [monitor_all_fans] only reads and prints: for every device it
    returns normally and leaves the device and the pending input as they
    were. When the device cannot be opened it prints the read failure and
    [Cannot read EC data]; on an empty device file it prints only the
    latter; on any other register file, however short, it prints its eighteen
    lines. *)
Theorem monitor_all_fans_read_only (w : world string unit) :
  exists lines,
    GmkFan.monitor_all_fans w =
      (Ok tt, World (ec w) (stdin w) (trace w ++ lines) (globals w)) /\
    (forall err, ec w = Unavailable err ->
       lines = [Printed ("Read failed: " +:+ err); Printed "Cannot read EC data"]) /\
    (ec w = Registers [] -> lines = [Printed "Cannot read EC data"]) /\
    (forall mem, ec w = Registers mem -> mem <> [] -> length lines = 18%nat).
Proof.
  unfold GmkFan.monitor_all_fans.
  pose proof (read_ec_eq w) as Hread.
  destruct (ec w) as [err | mem] eqn:Hec.
  - rewrite (bind_Ok _ _ _ _ _ Hread). cbv beta iota.
    rewrite print_eq. cbn [ec stdin trace globals]. rewrite <- app_assoc.
    eexists. split; [reflexivity |].
    split; [intros err' Herr; injection Herr as <-; reflexivity |].
    split; [discriminate | discriminate].
  - rewrite (bind_Ok _ _ _ _ _ Hread). cbv beta iota.
    destruct (take 256 mem) as [| d0 data] eqn:Hdata.
    + rewrite print_eq, Hec. eexists. split; [reflexivity |].
      split; [discriminate |]. split; [reflexivity |].
      intros mem' Hmem' Hne. injection Hmem' as <-.
      destruct mem; [congruence | discriminate].
    + cbv iota.
      destruct (get_byte_is_Ok (d0 :: data) 0x37) as [v37 H37].
      destruct (get_byte_is_Ok (d0 :: data) 0x35) as [v35 H35].
      destruct (get_byte_is_Ok (d0 :: data) 0x28) as [v28 H28].
      destruct (get_byte_is_Ok (d0 :: data) 0x23) as [v23 H23].
      destruct (get_byte_is_Ok (d0 :: data) 0x24) as [v24 H24].
      destruct (get_byte_is_Ok (d0 :: data) 0x21) as [v21 H21].
      destruct (get_byte_is_Ok (d0 :: data) 0x22) as [v22 H22].
      destruct (get_byte_is_Ok (d0 :: data) 0x25) as [v25 H25].
      destruct (get_byte_is_Ok (d0 :: data) 0x26) as [v26 H26].
      rewrite H37, bind_lift_Ok; cbv beta.
      rewrite H35, bind_lift_Ok; cbv beta.
      rewrite H28, bind_lift_Ok; cbv beta zeta.
      rewrite H23, bind_lift_Ok; cbv beta.
      rewrite H24, bind_lift_Ok; cbv beta.
      rewrite H21, bind_lift_Ok; cbv beta.
      rewrite H22, bind_lift_Ok; cbv beta.
      rewrite H25, bind_lift_Ok; cbv beta.
      rewrite H26, bind_lift_Ok; cbv beta zeta.
      run_prints. rewrite Hec.
      eexists. split; [reflexivity |].
      split; [discriminate |].
      split; [intros Hmem; injection Hmem as ->; discriminate |].
      intros mem' _ _. reflexivity.
Qed.

Lemma monitor_all_fans_read_only_witness :
  GmkFan.monitor_all_fans (World (Unavailable no_device) [Input "q"%string] [] tt) =
  (Ok tt,
   World (Unavailable no_device) [Input "q"%string]
     [Printed ("Read failed: " +:+ no_device); Printed "Cannot read EC data"] tt).
Proof.
  destruct (monitor_all_fans_read_only (World (Unavailable no_device) [Input "q"%string] [] tt))
    as [lines [Hrun [Hmissing _]]].
  rewrite Hrun, (Hmissing no_device eq_refl). reflexivity.
Defined.

(** X10. A register file too short to hold the registers read shows zeros
    instead of failing: with at most 33 bytes (so that every offset read,
    0x21 to 0x37, is past the end) the three rows show 0 RPM, 0% and 0 for
    every register. *)
Theorem short_file_shows_zeros (w : world string unit) (mem : list byte) :
  ec w = Registers mem -> (0 < length mem <= 33)%nat ->
  exists tail,
    GmkFan.monitor_all_fans w =
    (Ok tt,
     World (ec w) (stdin w)
       (trace w ++
        [Printed "=== Complete Fan Status ===";
         Printed "Fan 1:      0 RPM | PWM:   0% (0x24=0) [Enable: 0x23=0]";
         Printed "Fan 2:      0 RPM | PWM:   0% (0x22=0) [Enable: 0x21=0]";
         Printed "Sysfan:     0 RPM | PWM:   0% (0x26=0) [Enable: 0x25=0]"] ++ tail)
       (globals w)).
Proof.
  intros Hec Hlen.
  unfold GmkFan.monitor_all_fans.
  pose proof (read_ec_eq w) as Hread. rewrite Hec in Hread.
  rewrite take_ge in Hread by lia.
  rewrite (bind_Ok _ _ _ _ _ Hread). cbv beta iota.
  destruct mem as [| d0 data]; [cbn in Hlen; lia |]. cbv iota.
  rewrite (get_byte_beyond (d0 :: data) 0x37), bind_lift_Ok by lia; cbv beta.
  rewrite (get_byte_beyond (d0 :: data) 0x35), bind_lift_Ok by lia; cbv beta.
  rewrite (get_byte_beyond (d0 :: data) 0x28), bind_lift_Ok by lia; cbv beta zeta.
  rewrite (get_byte_beyond (d0 :: data) 0x23), bind_lift_Ok by lia; cbv beta.
  rewrite (get_byte_beyond (d0 :: data) 0x24), bind_lift_Ok by lia; cbv beta.
  rewrite (get_byte_beyond (d0 :: data) 0x21), bind_lift_Ok by lia; cbv beta.
  rewrite (get_byte_beyond (d0 :: data) 0x22), bind_lift_Ok by lia; cbv beta.
  rewrite (get_byte_beyond (d0 :: data) 0x25), bind_lift_Ok by lia; cbv beta.
  rewrite (get_byte_beyond (d0 :: data) 0x26), bind_lift_Ok by lia; cbv beta zeta.
  run_prints.
  eexists. reflexivity.
Qed.

Lemma short_file_shows_zeros_witness :
  exists tail,
    trace (snd (GmkFan.monitor_all_fans (World (Registers ["a"%byte]) [] [] tt))) =
    [Printed "=== Complete Fan Status ===";
     Printed "Fan 1:      0 RPM | PWM:   0% (0x24=0) [Enable: 0x23=0]"] ++ tail.
Proof.
  destruct (short_file_shows_zeros (World (Registers ["a"%byte]) [] [] tt) ["a"%byte] eq_refl)
    as [tail Hrun]; [cbn; lia |].
  rewrite Hrun. eexists. reflexivity.
Defined.


Lemma input_eof (prompt : string) (w : world string unit) :
  stdin w = [] ->
  GmkFan.input prompt w =
  (Raise (Exn EOFError "EOF when reading a line"),
   World (ec w) [] (trace w ++ [Written prompt]) (globals w)).
Proof.
  intros Hin. unfold GmkFan.input, bind, emit. cbn [ec stdin trace globals].
  rewrite Hin. reflexivity.
Qed.




Lemma turn_at_eof (fuel : nat) (w : world string unit) :
  stdin w = [] ->
  exists w1 w',
    redraw w = (Ok tt, w1) /\
    GmkFan.main_turn fuel w = (Ok GmkFan.Continue, w') /\
    ec w' = ec w /\ stdin w' = [] /\
    trace w' = trace w1 ++ [Written "Enter choice: ";
                            Printed ("Error: " +:+ "EOF when reading a line");
                            Slept 2000].
Proof.
  intros Hin.
  destruct (redraw_total w) as [lines Hredraw].
  set (w1 := World _ _ _ _) in Hredraw.
  exists w1. eexists. split; [exact Hredraw |].
  rewrite (main_turn_after_redraw fuel w w1 Hredraw).
  unfold try_except, GmkFan.choose.
  pose proof (input_eof "Enter choice: " w1 Hin) as Hinput.
  unfold bind at 1. rewrite Hinput. cbn [dispatch is_KeyboardInterrupt is_Exception exn_class_of].
  rewrite bind_print. cbv beta. cbn [ec stdin trace globals exn_msg].
  unfold bind, time_sleep, ret. cbn [ec stdin trace globals].
  split; [reflexivity |]. cbn [ec stdin trace].
  split; [reflexivity |]. split; [reflexivity |].
  rewrite <- !app_assoc. reflexivity.
Qed.

(** X12. With the standard input closed the menu loop never ends: [input]
    raises [EOFError], which the [except Exception] clause reports before
    the two-second pause, and the next turn does the same. However many
    turns are observed, the loop is still running and the registers are
    untouched. *)
Theorem main_spins_at_eof (fuel : nat) (w : world string unit) :
  stdin w = [] ->
  exists w',
    GmkFan.main fuel w = (Unfinished, w') /\ ec w' = ec w /\ stdin w' = [] /\
    ((0 < fuel)%nat ->
     In (Printed ("Error: " +:+ "EOF when reading a line")) (trace w') /\
     In (Slept 2000) (trace w')).
Proof.
  revert w. induction fuel as [| fuel IH]; intros w Hin.
  - exists w. cbn. repeat split; auto; lia.
  - destruct (turn_at_eof fuel w Hin) as [w1 [w2 [_ [Hturn [Hec [Hin2 Htrace]]]]]].
    destruct (IH w2 Hin2) as [w' [Hmain [Hec' [Hin' Hlater]]]].
    exists w'. rewrite (main_resumes fuel w w2 Hturn).
    split; [exact Hmain |]. split; [congruence |]. split; [exact Hin' |].
    intros _. destruct fuel as [| fuel'].
    + cbn in Hmain. injection Hmain as <-. rewrite Htrace.
      split; apply in_or_app; right; cbn; tauto.
    + apply Hlater. lia.
Qed.

Lemma main_spins_at_eof_witness :
  fst (GmkFan.main 4 (World (Registers blank_registers) [] [] tt)) = Unfinished.
Proof.
  destruct (main_spins_at_eof 4 (World (Registers blank_registers) [] [] tt) eq_refl)
    as [w' [Hmain _]].
  rewrite Hmain. reflexivity.
Defined.







Lemma try_Ok {A} (m : GmkFan.Menu A) clauses (w w' : world string unit) (a : A) :
  m w = (Ok a, w') -> try_except m clauses w = (Ok a, w').
Proof. intros Hm. unfold try_except. rewrite Hm. reflexivity. Qed.



Lemma time_sleep_idle {K G} (ms : Z) (rest : list (event K)) (w : world K G) :
  stdin w = Idle :: rest ->
  time_sleep ms w = (Ok tt, World (ec w) rest (trace w ++ [Slept ms]) (globals w)).
Proof. intros Hin. unfold time_sleep. rewrite Hin. reflexivity. Qed.

Lemma time_sleep_interrupt {K G} (ms : Z) (rest : list (event K)) (w : world K G) :
  stdin w = CtrlC :: rest ->
  time_sleep ms w = (Raise interrupt, World (ec w) rest (trace w) (globals w)).
Proof. intros Hin. unfold time_sleep. rewrite Hin. reflexivity. Qed.

Lemma bind_Raise {K G A B} (m : @M K G A) (k : A -> @M K G B) (w w' : world K G) e :
  m w = (Raise e, w') -> bind m k w = (Raise e, w').
Proof. intros Hm. unfold bind. rewrite Hm. reflexivity. Qed.

(** One round of the refresh loop of entry 6: clear, status, two-second sleep. *)
Lemma refresh_round (fuel : nat) (w : world string unit) :
  exists lines,
    GmkFan.monitor_continuously (S fuel) w =
    (time_sleep 2000 ;; GmkFan.monitor_continuously fuel)
      (World (ec w) (stdin w) (trace w ++ lines) (globals w)).
Proof.
  cbn [GmkFan.monitor_continuously].
  destruct (monitor_all_fans_total
              (World (ec w) (stdin w) (trace w ++ [Ran "clear"]) (globals w)))
    as [lines Hlines].
  cbn [ec stdin trace globals] in Hlines.
  rewrite bind_os_system. cbv beta.
  rewrite (bind_Ok _ _ _ _ _ Hlines). cbv beta.
  rewrite <- app_assoc. eexists. reflexivity.
Qed.

Lemma monitor_continuously_interrupted (n : nat) :
  forall (fuel : nat) (w : world string unit) (rest : list (event string)),
    stdin w = repeat Idle n ++ CtrlC :: rest -> (n < fuel)%nat ->
    exists w',
      GmkFan.monitor_continuously fuel w = (Raise interrupt, w') /\
      ec w' = ec w /\ stdin w' = rest.
Proof.
  induction n as [| n IH]; intros fuel w rest Hin Hfuel;
    (destruct fuel as [| fuel]; [lia |]);
    destruct (refresh_round fuel w) as [lines ->]; cbn [repeat app] in Hin;
    set (w1 := World (ec w) (stdin w) (trace w ++ lines) (globals w)).
  - assert (Hin1 : stdin w1 = CtrlC :: rest) by exact Hin.
    rewrite (bind_Raise _ _ _ _ _ (time_sleep_interrupt 2000 rest w1 Hin1)).
    eexists. split; [reflexivity |]. split; reflexivity.
  - assert (Hin1 : stdin w1 = Idle :: repeat Idle n ++ CtrlC :: rest) by exact Hin.
    rewrite (bind_Ok _ _ _ _ _ (time_sleep_idle 2000 _ w1 Hin1)).
    destruct (IH fuel (World (ec w1) (repeat Idle n ++ CtrlC :: rest)
                         (trace w1 ++ [Slept 2000]) (globals w1)) rest eq_refl)
      as [w' [Hrun [Hec Hrest]]]; [lia |].
    exists w'. split; [exact Hrun |]. split; [exact Hec | exact Hrest].
Qed.

(** [try: m  except KeyboardInterrupt: pass] when [m] is interrupted. *)
Lemma interrupt_passed (m : GmkFan.Menu unit) (w w' : world string unit) :
  m w = (Raise interrupt, w') ->
  (try_except m [(is_KeyboardInterrupt, fun _ => ret tt)] ;; ret GmkFan.Continue) w
  = (Ok GmkFan.Continue, w').
Proof. intros Hm. unfold bind, try_except. rewrite Hm. reflexivity. Qed.

(** X15. In continuous monitoring (entry 6) Ctrl+C does not quit the
    program: after any number [n] of idle refresh periods, with the loop
    given more than [n] rounds, the interrupt ends the refresh loop and the
    turn continues with the menu; no register has been written and the
    input after the interrupt is still to be read. *)
Theorem monitoring_returns_to_menu (fuel n : nat) (w : world string unit) (c : string)
    (rest : list (event string)) :
  stdin w = Input c :: repeat Idle n ++ CtrlC :: rest -> strip c = "6"%string ->
  (n < fuel)%nat ->
  exists w',
    GmkFan.main_turn fuel w = (Ok GmkFan.Continue, w') /\
    GmkFan.main (S fuel) w = GmkFan.main fuel w' /\
    ec w' = ec w /\ stdin w' = rest.
Proof.
  intros Hin Hc Hfuel.
  destruct (redraw_total w) as [lines Hredraw].
  set (w1 := World _ _ _ _) in Hredraw.
  set (w3 := World (ec w1) (repeat Idle n ++ CtrlC :: rest)
               ((trace w1 ++ [Written "Enter choice: "])
                ++ [Printed "Monitoring... Press Ctrl+C to return to menu"])
               (globals w1)).
  destruct (monitor_continuously_interrupted n fuel w3 rest eq_refl Hfuel)
    as [w' [Hrun [Hec Hrest]]].
  assert (Hturn : GmkFan.main_turn fuel w = (Ok GmkFan.Continue, w')).
  { rewrite (main_turn_after_redraw fuel w w1 Hredraw).
    apply try_Ok. unfold GmkFan.choose.
    rewrite (bind_Ok _ _ _ _ _ (input_line _ c _ w1 Hin)). cbv beta zeta.
    rewrite Hc. cbn [String.eqb Ascii.eqb Bool.eqb andb].
    rewrite bind_print. cbv beta. cbn [ec stdin trace globals].
    apply interrupt_passed. exact Hrun. }
  exists w'. split; [exact Hturn |]. split; [apply main_resumes; exact Hturn |].
  split; [exact Hec | exact Hrest].
Qed.

Lemma monitoring_returns_to_menu_witness :
  exists w',
    GmkFan.main_turn 4 (World (Registers blank_registers)
                          [Input "6"%string; Idle; Idle; CtrlC; Input "q"%string] [] tt)
    = (Ok GmkFan.Continue, w') /\
    GmkFan.main 5 (World (Registers blank_registers)
                     [Input "6"%string; Idle; Idle; CtrlC; Input "q"%string] [] tt)
    = GmkFan.main 4 w' /\
    ec w' = Registers blank_registers /\ stdin w' = [Input "q"%string].
Proof.
  apply (monitoring_returns_to_menu 4 2
           (World (Registers blank_registers)
              [Input "6"%string; Idle; Idle; CtrlC; Input "q"%string] [] tt)
           "6"%string [Input "q"%string]); [reflexivity | reflexivity | lia].
Defined.






(** * Further properties of the one-line monitor *)

Lemma read_byte_raw (w : world ascii (gmap Z Z)) (mem : list byte) (offset : Z) :
  ec w = Registers mem -> 0 <= offset < Z.of_nat (length mem) ->
  EcFansMonitor.read_byte offset w = (Ok (raw_byte mem offset), w) /\
  register w offset = byte_of_Z (raw_byte mem offset).
Proof.
  intros Hec Hoff. destruct (lookup_raw mem offset Hoff) as [b [Hb ->]].
  assert (Hreg : register w offset = Some b).
  { unfold register. rewrite Hec. destruct (Z.ltb_spec offset 0); [lia | exact Hb]. }
  split; [apply read_byte_register; exact Hreg |].
  rewrite byte_of_Z_of_byte. exact Hreg.
Qed.

Lemma mirrored_same_device (w w' : world ascii (gmap Z Z)) :
  ec w' = ec w -> globals w' = globals w -> mirrored w -> mirrored w'.
Proof.
  intros Hec Hg [mem [Hmem [Hlen Hfans]]].
  exists mem. split; [congruence |]. split; [exact Hlen |].
  intros fan Hfan. destruct (Hfans fan Hfan) as [v [Hv [Hr Hreg]]].
  exists v. rewrite Hg. split; [exact Hv |]. split; [exact Hr |].
  unfold register in *. rewrite Hec. exact Hreg.
Qed.



(** The dictionary comprehension of line 50 on a full register file. *)
Lemma read_pwm_values_run (w : world ascii (gmap Z Z)) (mem : list byte) :
  ec w = Registers mem -> length mem = 256%nat ->
  EcFansMonitor.read_pwm_values EcFansMonitor.FAN_PWM_MAP ∅ w =
  (Ok (<[2 := raw_byte mem 9]> (<[1 := raw_byte mem 8]> (<[0 := raw_byte mem 7]> ∅))), w).
Proof.
  intros Hec Hlen. unfold EcFansMonitor.FAN_PWM_MAP.
  cbn [EcFansMonitor.read_pwm_values].
  destruct (read_byte_raw w mem 7 Hec) as [H7 _]; [lia |].
  destruct (read_byte_raw w mem 8 Hec) as [H8 _]; [lia |].
  destruct (read_byte_raw w mem 9 Hec) as [H9 _]; [lia |].
  rewrite (bind_Ok _ _ _ _ _ H7). cbv beta.
  rewrite (bind_Ok _ _ _ _ _ H8). cbv beta.
  rewrite (bind_Ok _ _ _ _ _ H9). reflexivity.
Qed.

Lemma startup_mirrored (w : world ascii (gmap Z Z)) (mem : list byte) (d : gmap Z Z) :
  ec w = Registers mem -> length mem = 256%nat ->
  (forall fan, 0 <= fan <= 2 -> d !! fan = Some (raw_byte mem (fan + 7))) ->
  mirrored (World (ec w) (stdin w) (trace w) d).
Proof.
  intros Hec Hlen Hd. exists mem. split; [exact Hec |]. split; [exact Hlen |].
  intros fan Hfan. exists (raw_byte mem (fan + 7)).
  split; [apply Hd; exact Hfan |].
  split; [apply Z_of_byte_range |].
  apply (read_byte_raw (World (ec w) (stdin w) (trace w) d) mem); [exact Hec | lia].
Qed.

Lemma startup_values (mem : list byte) (fan : Z) :
  0 <= fan <= 2 ->
  (<[2 := raw_byte mem 9]> (<[1 := raw_byte mem 8]> (<[0 := raw_byte mem 7]> ∅))
     : gmap Z Z) !! fan
  = Some (raw_byte mem (fan + 7)).
Proof.
  intros Hfan.
  assert (fan = 0 \/ fan = 1 \/ fan = 2) as [-> | [-> | ->]] by lia.
  - rewrite !lookup_insert_ne by lia. apply lookup_insert_eq.
  - rewrite lookup_insert_ne by lia. apply lookup_insert_eq.
  - apply lookup_insert_eq.
Qed.

(** X17. At start, on a register file of 256 bytes, [PWM_VALUES] is read
    from the device without changing it: fan 0, 1, 2 gets the byte at 0x07,
    0x08, 0x09, so the bookkeeping starts in agreement with the registers. *)
Theorem startup_reads_pwm_registers (w : world ascii (gmap Z Z)) (mem : list byte) :
  ec w = Registers mem -> length mem = 256%nat ->
  exists d,
    EcFansMonitor.read_pwm_values EcFansMonitor.FAN_PWM_MAP ∅ w = (Ok d, w) /\
    (forall fan, 0 <= fan <= 2 -> d !! fan = Some (raw_byte mem (fan + 7))) /\
    (forall fan, d !! fan <> None -> 0 <= fan <= 2) /\
    mirrored (World (ec w) (stdin w) (trace w) d).
Proof.
  intros Hec Hlen. eexists. split; [apply (read_pwm_values_run w mem Hec Hlen) |].
  split; [apply startup_values |].
  split; [| apply (startup_mirrored w mem); [exact Hec | exact Hlen | apply startup_values]].
  intros fan Hsome.
  destruct (decide (fan = 2)) as [-> | H2]; [lia |].
  destruct (decide (fan = 1)) as [-> | H1]; [lia |].
  destruct (decide (fan = 0)) as [-> | H0]; [lia |].
  rewrite !lookup_insert_ne in Hsome by congruence. rewrite lookup_empty in Hsome.
  congruence.
Qed.

Lemma startup_reads_pwm_registers_witness :
  exists d,
    EcFansMonitor.read_pwm_values EcFansMonitor.FAN_PWM_MAP ∅
      (World (Registers sysfan_at_100) [] [] ∅)
    = (Ok d, World (Registers sysfan_at_100) [] [] ∅) /\
    d !! 0 = Some 100.
Proof.
  destruct (startup_reads_pwm_registers (World (Registers sysfan_at_100) [] [] ∅)
              sysfan_at_100 eq_refl eq_refl) as [d [Hrun [Hd _]]].
  exists d. split; [exact Hrun |]. rewrite (Hd 0) by lia. reflexivity.
Defined.








(** The handler's loop of writes on a world in agreement with its device
    finds in every register the value it writes. *)
Lemma write_pwm_values_identity (w : world ascii (gmap Z Z)) :
  mirrored w ->
  EcFansMonitor.write_pwm_values EcFansMonitor.FAN_PWM_MAP w = (Ok tt, w).
Proof.
  intros [mem [Hec [Hlen Hfans]]].
  assert (Hstep : forall fan, 0 <= fan <= 2 ->
            exists v, EcFansMonitor.PWM_VALUES fan w = (Ok v, w) /\
                      EcFansMonitor.write_byte (fan + 7) v w = (Ok tt, w)).
  { intros fan Hfan. destruct (Hfans fan Hfan) as [v [Hv [Hr Hreg]]].
    exists v. split; [apply PWM_VALUES_eq; exact Hv |].
    destruct (byte_of_Z_in_range v Hr) as [b [Hb _]].
    rewrite (write_byte_in_range (fan + 7) v w mem b Hec ltac:(lia) Hb).
    unfold register in Hreg. rewrite Hec, Hb in Hreg.
    destruct (Z.ltb_spec (fan + 7) 0); [lia |].
    rewrite (list_insert_id _ _ _ Hreg). rewrite <- Hec.
    destruct w; reflexivity. }
  unfold EcFansMonitor.FAN_PWM_MAP. cbn [EcFansMonitor.write_pwm_values].
  destruct (Hstep 0 ltac:(lia)) as [v0 [Hv0 Hw0]].
  destruct (Hstep 1 ltac:(lia)) as [v1 [Hv1 Hw1]].
  destruct (Hstep 2 ltac:(lia)) as [v2 [Hv2 Hw2]].
  rewrite (bind_Ok _ _ _ _ _ Hv0). cbv beta. rewrite (bind_Ok _ _ _ _ _ Hw0). cbv beta.
  rewrite (bind_Ok _ _ _ _ _ Hv1). cbv beta. rewrite (bind_Ok _ _ _ _ _ Hw1). cbv beta.
  rewrite (bind_Ok _ _ _ _ _ Hv2). cbv beta. rewrite (bind_Ok _ _ _ _ _ Hw2). cbv beta.
  reflexivity.
Qed.







(** X21. The [KeyboardInterrupt] handler changes nothing but the output
    when the bookkeeping agrees with the device: each of its three writes
    stores the byte its register already holds, so after the handler the
    device, the input and [PWM_VALUES] are what they were, and only the
    exit message has been added. *)
Theorem exit_handler_rewrites_nothing (w : world ascii (gmap Z Z)) :
  mirrored w ->
  EcFansMonitor.write_pwm_values EcFansMonitor.FAN_PWM_MAP w = (Ok tt, w) /\
  (print (EcFansMonitor.nl +:+ "Exiting, restoring original PWM values...") ;;
   EcFansMonitor.write_pwm_values EcFansMonitor.FAN_PWM_MAP) w
  = (Ok tt,
     World (ec w) (stdin w)
       (trace w ++ [Printed (EcFansMonitor.nl +:+ "Exiting, restoring original PWM values...")])
       (globals w)).
Proof.
  intros Hm. split; [apply write_pwm_values_identity; exact Hm |].
  rewrite bind_print. cbv beta.
  apply write_pwm_values_identity.
  apply (mirrored_same_device w); [reflexivity | reflexivity | exact Hm].
Qed.

Lemma exit_handler_rewrites_nothing_witness :
  EcFansMonitor.write_pwm_values EcFansMonitor.FAN_PWM_MAP
    (World (Registers sysfan_at_100) [] [] {[ 0 := 100; 1 := 0; 2 := 0 ]})
  = (Ok tt, World (Registers sysfan_at_100) [] [] {[ 0 := 100; 1 := 0; 2 := 0 ]}).
Proof.
  apply exit_handler_rewrites_nothing.
  exists sysfan_at_100. split; [reflexivity |]. split; [reflexivity |].
  intros fan Hfan.
  assert (fan = 0 \/ fan = 1 \/ fan = 2) as [-> | [-> | ->]] by lia;
    [exists 100 | exists 0 | exists 0];
    (split; [reflexivity | split; [lia | reflexivity]]).
Defined.





